(** * ag71xx MDIO bus controller and ath79 MII mode controller

    A shallow embedding of
      drivers/net/ethernet/atheros/ag71xx/ag71xx_mdio.c
      drivers/net/ethernet/atheros/ag71xx/ath79-mii-ctrl.c
    together with the properties of the register-level protocol.

    Conventions.  A C [u32], [int] or [unsigned long] is a [Z]; where a
    conversion to [u32] can change the value it is written out with
    [u32].  The C bit operators are [Z.land], [Z.lor], [Z.shiftl] and
    [Z.shiftr], which agree with two's complement on negative numbers.
    An [int] status is kept as the driver returns it: [0] for success,
    a negated errno for failure. *)

From Stdlib Require Import ZArith Zbitwise Lia.
From stdpp Require Import base numbers list functions.

Local Open Scope Z_scope.

(** ** Kernel vocabulary shared by both drivers *)

Module Errno.
Definition EINVAL : Z := 22.
Definition ETIMEDOUT : Z := 110.
End Errno.
Import Errno.

(** Conversion of a C integer to [u32]. *)
Definition u32 (z : Z) : Z := z mod 2 ^ 32.

(** [BIT(n)] of linux/bits.h. *)
Definition BIT (n : Z) : Z := Z.shiftl 1 n.

(** A memory-mapped register window: the word found at each byte offset
    from the mapped base. *)
Definition window : Type := Z -> Z.

(** ** ath79-mii-ctrl.c *)

Module MiiCtrl.

Definition MII_CTRL_MAX_INTERFACE_COUNT : Z := 2.

Definition MII_CTRL_SELECT_SHIFT : Z := 0.
Definition MII_CTRL_SELECT_MASK : Z := 0x3.

Definition MII_CTRL_SELECT_PORT1_MASK : Z := 0x1.

Definition MII_CTRL_SELECT_GMII : Z := 0.
Definition MII_CTRL_SELECT_MII : Z := 1.
Definition MII_CTRL_SELECT_RGMII : Z := 2.
Definition MII_CTRL_SELECT_RMII : Z := 3.

Definition MII_CTRL_SPEED_SHIFT : Z := 4.
Definition MII_CTRL_SPEED_MASK : Z := 0x3.

Definition MII_CTRL_SPEED_10 : Z := 0.
Definition MII_CTRL_SPEED_100 : Z := 1.
Definition MII_CTRL_SPEED_1000 : Z := 2.

(** [struct mii_ctrl].  The [base] pointer is the register window the
    operations below thread through as their state. *)
Record mii_ctrl : Type := {
  num_port : Z;
  has_gbit : bool
}.

(** [struct mii_ctrl_handle] (the [dev] back pointer only serves the
    reference count). *)
Record mii_ctrl_handle : Type := {
  ctrl : mii_ctrl;
  port : Z
}.

Definition ar7100_mii_ctrl : mii_ctrl := {| num_port := 2; has_gbit := true |}.
Definition ar7130_mii_ctrl : mii_ctrl := {| num_port := 2; has_gbit := false |}.

(** Modelled from the spec: [phy_interface_t] is declared in
    linux/phy.h, which is not part of the sources.  The four modes the
    driver names are kept; every other enumerator of the kernel type
    is [PHY_INTERFACE_MODE_other] with its numeric value. *)
Inductive phy_interface_t : Type :=
| PHY_INTERFACE_MODE_GMII
| PHY_INTERFACE_MODE_MII
| PHY_INTERFACE_MODE_RGMII
| PHY_INTERFACE_MODE_RMII
| PHY_INTERFACE_MODE_other (code : Z).

Definition readl (io : window) (off : Z) : Z := io off.
Definition writel (val : Z) (off : Z) (io : window) : window := <[off := val]> io.

(** The two bit fields of a port's configuration word. *)
Definition select_field (val : Z) : Z :=
  Z.land (Z.shiftr val MII_CTRL_SELECT_SHIFT) MII_CTRL_SELECT_MASK.
Definition speed_field (val : Z) : Z :=
  Z.land (Z.shiftr val MII_CTRL_SPEED_SHIFT) MII_CTRL_SPEED_MASK.

(** [mii_ctrl_set_interface].

    The C function declares [u32 val, select, speed, port;] and never
    assigns [port]: both [if (port > 0)] tests and [if (port == 1)]
    read the indeterminate content of that local.  The content is the
    extra argument [port_local]; [hdl->port] is only used to address
    the register.  Each [inl] is an early [return]. *)
Definition mii_ctrl_set_interface (port_local : Z)
    (hdl : mii_ctrl_handle) (iface : phy_interface_t) (io : window)
    : Z * window :=
  let val := readl io (port hdl * 4) in
  let speed := Z.land (Z.shiftr val MII_CTRL_SPEED_SHIFT) MII_CTRL_SPEED_MASK in
  match
    match iface with
    | PHY_INTERFACE_MODE_GMII =>
        (* GMII is only supported on port 0 *)
        if 0 <? port_local then inl (- EINVAL) else inr MII_CTRL_SELECT_GMII
    | PHY_INTERFACE_MODE_MII =>
        (* MII is only supported on port 0 *)
        if 0 <? port_local then inl (- EINVAL) else inr MII_CTRL_SELECT_MII
    | PHY_INTERFACE_MODE_RGMII => inr MII_CTRL_SELECT_RGMII
    | PHY_INTERFACE_MODE_RMII => inr MII_CTRL_SELECT_RMII
    | PHY_INTERFACE_MODE_other _ => inl (- EINVAL)
    end
  with
  | inl err => (err, io)
  | inr select =>
      (* The select field is smaller on port 1 *)
      let select :=
        if port_local =? 1 then Z.land select MII_CTRL_SELECT_PORT1_MASK
        else select in
      match
        match iface with
        | PHY_INTERFACE_MODE_GMII | PHY_INTERFACE_MODE_RGMII =>
            (* Make sure gigabit is supported *)
            if negb (has_gbit (ctrl hdl)) then inl (- EINVAL) else inr speed
        | PHY_INTERFACE_MODE_MII | PHY_INTERFACE_MODE_RMII =>
            (* Make sure the speed is compatible *)
            inr (if MII_CTRL_SPEED_100 <? speed then MII_CTRL_SPEED_100
                 else speed)
        | PHY_INTERFACE_MODE_other _ => inl (- EINVAL)
        end
      with
      | inl err => (err, io)
      | inr speed =>
          (* Write the new mode *)
          let val := Z.lor (Z.shiftl select MII_CTRL_SELECT_SHIFT)
                           (Z.shiftl speed MII_CTRL_SPEED_SHIFT) in
          (0, writel val (port hdl * 4) io)
      end
  end.

(** [mii_ctrl_set_speed].  [case 10:] has no [break]: control runs on
    into [case 100:], so both assignments to [speed] are executed. *)
Definition mii_ctrl_set_speed
    (hdl : mii_ctrl_handle) (link_speed : Z) (io : window) : Z * window :=
  let val := readl io (port hdl * 4) in
  let select := Z.land (Z.shiftr val MII_CTRL_SELECT_SHIFT) MII_CTRL_SELECT_MASK in
  match
    if link_speed =? 10 then
      let speed := MII_CTRL_SPEED_10 in
      let speed := MII_CTRL_SPEED_100 in
      inr speed
    else if link_speed =? 100 then
      inr MII_CTRL_SPEED_100
    else if link_speed =? 1000 then
      (* gigabit is not supported with (r)mii *)
      if (select =? MII_CTRL_SELECT_MII) || (select =? MII_CTRL_SELECT_RMII)
      then inl (- EINVAL)
      else inr MII_CTRL_SPEED_1000
    else inl (- EINVAL)
  with
  | inl err => (err, io)
  | inr speed =>
      (* Write the new mode *)
      let val := Z.lor (Z.shiftl select MII_CTRL_SELECT_SHIFT)
                       (Z.shiftl speed MII_CTRL_SPEED_SHIFT) in
      (0, writel val (port hdl * 4) io)
  end.

(** *** Vocabulary of the statements *)

(** The configuration word of the port a handle is bound to. *)
Definition port_word (hdl : mii_ctrl_handle) (io : window) : Z :=
  readl io (port hdl * 4).

(** Handles and register contents used as concrete inputs. *)
Definition hdl_ar7100 (p : Z) : mii_ctrl_handle :=
  {| ctrl := ar7100_mii_ctrl; port := p |}.
Definition hdl_ar7130 (p : Z) : mii_ctrl_handle :=
  {| ctrl := ar7130_mii_ctrl; port := p |}.
Definition all_ports (word : Z) : window := fun _ => word.

(** The word both operations compose from a select and a speed code. *)
Definition compose (select speed : Z) : Z :=
  Z.lor (Z.shiftl select MII_CTRL_SELECT_SHIFT)
        (Z.shiftl speed MII_CTRL_SPEED_SHIFT).

(** The speed code a successful [mii_ctrl_set_interface] stores, from the
    code found in the register. *)
Definition iface_speed (iface : phy_interface_t) (speed : Z) : Z :=
  match iface with
  | PHY_INTERFACE_MODE_MII | PHY_INTERFACE_MODE_RMII =>
      Z.min speed MII_CTRL_SPEED_100
  | _ => speed
  end.

End MiiCtrl.

(** ** ag71xx_mdio.c *)

Module Mdio.

Definition AG71XX_MDIO_RATE : Z := 2500000.
Definition AG71XX_MDIO_RETRY : nat := 1000.
Definition AG71XX_MDIO_DELAY : Z := 5.

Definition AG71XX_REG_MII_CFG : Z := 0x0020.
Definition AG71XX_REG_MII_CMD : Z := 0x0024.
Definition AG71XX_REG_MII_ADDR : Z := 0x0028.
Definition AG71XX_REG_MII_CTRL : Z := 0x002c.
Definition AG71XX_REG_MII_STATUS : Z := 0x0030.
Definition AG71XX_REG_MII_IND : Z := 0x0034.

Definition MII_CMD_WRITE : Z := 0x0.
Definition MII_CMD_READ : Z := 0x1.
Definition MII_ADDR_SHIFT : Z := 8.
Definition MII_IND_BUSY : Z := BIT 0.
Definition MII_IND_INVALID : Z := BIT 2.

Definition MII_CFG_RESET : Z := BIT 31.

(** [struct ag71xx_mdio_hw]: the table is the array [div_table] points
    to, [div_table_size] the separate count the driver trusts. *)
Record ag71xx_mdio_hw : Type := {
  div_table : list Z;
  div_table_size : nat
}.

(** [struct ag71xx_mdio].  [ref_clk] stands for the rate
    [clk_get_rate(am->ref_clk)] reports; [mdio_base] is the device
    state threaded through the operations. *)
Record ag71xx_mdio : Type := {
  ref_clk : Z;
  mdio_rate : Z;
  hw : ag71xx_mdio_hw
}.

Definition clk_get_rate (clk : Z) : Z := clk.

(** *** Divider selection *)

(** What can go wrong below the C abstract machine. *)
Inductive fault : Type :=
| OutOfBounds (i : nat)      (* div_table[i] with i outside the array *)
| DivideByZero (i : nat).    (* ref_clock / div_table[i] with a zero entry *)

Inductive outcome (A : Type) : Type :=
| Done (a : A)
| Fault (f : fault).
Arguments Done {A} a.
Arguments Fault {A} f.

(** [am->hw->div_table[i]] *)
Definition div_table_at (am : ag71xx_mdio) (i : nat) : outcome Z :=
  match div_table (hw am) !! i with
  | Some d => Done d
  | None => Fault (OutOfBounds i)
  end.

(** The loop [for (i = 0; i <= am->hw->div_table_size; i++)] entered
    at index [i] with [todo] iterations still to run, followed by the
    fallback [return am->hw->div_table[i]] once the loop is left. *)
Fixpoint divider_scan (am : ag71xx_mdio) (ref_clock : Z) (todo i : nat)
    : outcome Z :=
  match todo with
  | O =>
      (* Fallback on the slowest possible clock *)
      div_table_at am i
  | S todo' =>
      match div_table_at am i with
      | Fault f => Fault f
      | Done d =>
          if d =? 0 then Fault (DivideByZero i)
          else
            let r := ref_clock / d in
            if r <=? mdio_rate am then Done d
            else divider_scan am ref_clock todo' (S i)
      end
  end.

(** [ag71xx_mdio_get_divider].  The return type is [u32], so the
    [-EINVAL] of the zero-clock guard is returned as its [u32] image. *)
Definition ag71xx_mdio_get_divider (am : ag71xx_mdio) : outcome Z :=
  let ref_clock := clk_get_rate (ref_clk am) in
  if ref_clock =? 0 then Done (u32 (- EINVAL))
  else divider_scan am ref_clock (S (div_table_size (hw am))) 0.

(** *** The device behind [mdio_base] *)

(** Registers the driver writes keep what was written ([regs]); IND
    and STATUS are driven by the hardware.  [wlog] records every
    register write in program order, [ind_polls] counts the reads of
    IND and [delayed] sums the [udelay] arguments. *)
Record mdio_dev : Type := {
  regs : window;
  ind_polls : nat;
  delayed : Z;
  wlog : list (Z * Z)
}.

(** The hardware side: the value the k-th read of IND returns, and the
    value STATUS shows after k reads of IND. *)
Record mdio_bus : Type := {
  ind_at : nat -> Z;
  status_at : nat -> Z
}.

(** Driver code runs in a state monad over the device. *)
Definition io (A : Type) : Type := mdio_dev -> A * mdio_dev.

#[global] Instance io_ret : MRet io := fun A a dev => (a, dev).
#[global] Instance io_bind : MBind io :=
  fun A B f m dev => let '(a, dev') := m dev in f a dev'.

Section Driver.
Variable bus : mdio_bus.

Definition __raw_readl (off : Z) : io Z := fun dev =>
  if off =? AG71XX_REG_MII_IND then
    (ind_at bus (ind_polls dev),
     {| regs := regs dev; ind_polls := S (ind_polls dev);
        delayed := delayed dev; wlog := wlog dev |})
  else if off =? AG71XX_REG_MII_STATUS then
    (status_at bus (ind_polls dev), dev)
  else (regs dev off, dev).

Definition __raw_writel (value : Z) (off : Z) : io unit := fun dev =>
  (tt, {| regs := <[off := value]> (regs dev); ind_polls := ind_polls dev;
          delayed := delayed dev; wlog := wlog dev ++ [(off, value)] |}).

Definition udelay (usecs : Z) : io unit := fun dev =>
  (tt, {| regs := regs dev; ind_polls := ind_polls dev;
          delayed := delayed dev + usecs; wlog := wlog dev |}).

Definition ag71xx_mdio_wr (reg : Z) (value : Z) : io unit :=
  __raw_writel (u32 value) reg ;;
  (* flush write *)
  _ ← __raw_readl reg;
  mret tt.

Definition ag71xx_mdio_rr (reg : Z) : io Z := __raw_readl reg.

(** The loop of [ag71xx_mdio_wait_busy] with [todo] iterations left;
    leaving it by exhaustion reaches [dev_err] and
    [return -ETIMEDOUT]. *)
Fixpoint wait_busy_loop (todo : nat) : io Z :=
  match todo with
  | O => mret (- ETIMEDOUT)
  | S todo' =>
      busy ← ag71xx_mdio_rr AG71XX_REG_MII_IND;
      if busy =? 0 then mret 0
      else udelay AG71XX_MDIO_DELAY ;; wait_busy_loop todo'
  end.

Definition ag71xx_mdio_wait_busy : io Z := wait_busy_loop AG71XX_MDIO_RETRY.

Definition ag71xx_mdio_read (addr reg : Z) : io Z :=
  err ← ag71xx_mdio_wait_busy;
  if negb (err =? 0) then mret err
  else
    ag71xx_mdio_wr AG71XX_REG_MII_CMD MII_CMD_WRITE ;;
    ag71xx_mdio_wr AG71XX_REG_MII_ADDR
      (Z.lor (Z.shiftl (Z.land addr 0xff) MII_ADDR_SHIFT) (Z.land reg 0xff)) ;;
    ag71xx_mdio_wr AG71XX_REG_MII_CMD MII_CMD_READ ;;
    err ← ag71xx_mdio_wait_busy;
    if negb (err =? 0) then mret err
    else
      status ← ag71xx_mdio_rr AG71XX_REG_MII_STATUS;
      let val := Z.land status 0xffff in
      ag71xx_mdio_wr AG71XX_REG_MII_CMD MII_CMD_WRITE ;;
      mret val.

Definition ag71xx_mdio_write (addr reg : Z) (val : Z) : io Z :=
  ag71xx_mdio_wr AG71XX_REG_MII_ADDR
    (Z.lor (Z.shiftl (Z.land addr 0xff) MII_ADDR_SHIFT) (Z.land reg 0xff)) ;;
  ag71xx_mdio_wr AG71XX_REG_MII_CTRL val ;;
  ag71xx_mdio_wait_busy.

(** [ag71xx_mdio_reset]: the divider is used as it comes back, with
    no test for the error value; a fault of the table scan is the
    only thing that keeps the function from returning [0]. *)
Definition ag71xx_mdio_reset (am : ag71xx_mdio) (dev : mdio_dev)
    : outcome (Z * mdio_dev) :=
  match ag71xx_mdio_get_divider am with
  | Fault f => Fault f
  | Done div =>
      Done ((ag71xx_mdio_wr AG71XX_REG_MII_CFG (Z.lor div MII_CFG_RESET) ;;
             udelay 100 ;;
             ag71xx_mdio_wr AG71XX_REG_MII_CFG div ;;
             udelay 100 ;;
             mret 0) dev)
  end.

End Driver.

(** *** Vocabulary of the statements *)

(** The ADDR word for a device address and a register address. *)
Definition mii_addr (addr reg : Z) : Z :=
  Z.lor (Z.shiftl (Z.land addr 0xff) 8) (Z.land reg 0xff).

(** A candidate divider is acceptable when the clock it yields does not
    exceed the configured rate. *)
Definition slow_enough (am : ag71xx_mdio) (d : Z) : Prop :=
  ref_clk am / d <= mdio_rate am.

(** The device after [polls] more reads of IND and [waits] delays of
    [AG71XX_MDIO_DELAY] microseconds. *)
Definition after_polls (polls waits : nat) (dev : mdio_dev) : mdio_dev :=
  {| regs := regs dev;
     ind_polls := ind_polls dev + polls;
     delayed := delayed dev + AG71XX_MDIO_DELAY * Z.of_nat waits;
     wlog := wlog dev |}.

(** The device after a write of [value] to the register at [off]. *)
Definition written (off value : Z) (dev : mdio_dev) : mdio_dev :=
  {| regs := <[off := value]> (regs dev);
     ind_polls := ind_polls dev;
     delayed := delayed dev;
     wlog := wlog dev ++ [(off, value)] |}.

(** Concrete inputs: a divider table 4 .. 28 behind a 200 MHz reference
    clock, a device fresh out of power-on, a bus that is idle at once
    and one whose IND register shows only the INVALID bit. *)
Definition am_200mhz : ag71xx_mdio :=
  {| ref_clk := 200000000;
     mdio_rate := AG71XX_MDIO_RATE;
     hw := {| div_table := [4; 6; 8; 10; 14; 20; 28]; div_table_size := 7 |} |}.

Definition am_40mhz : ag71xx_mdio :=
  {| ref_clk := 40000000;
     mdio_rate := AG71XX_MDIO_RATE;
     hw := {| div_table := [4; 6; 8; 10; 14; 20; 28]; div_table_size := 7 |} |}.

Definition dev_power_on : mdio_dev :=
  {| regs := fun _ => 0; ind_polls := 0; delayed := 0; wlog := [] |}.

Definition bus_idle (status : Z) : mdio_bus :=
  {| ind_at := fun _ => 0; status_at := fun _ => status |}.

Definition bus_invalid_only : mdio_bus :=
  {| ind_at := fun _ => MII_IND_INVALID; status_at := fun _ => 0 |}.

End Mdio.

(** ** ath79-mii-ctrl.c: handle acquisition *)

Module MiiCtrlGet.
Import MiiCtrl.

Definition ENOMEM : Z := 12.
Definition ENODEV : Z := 19.
Definition EPROBE_DEFER : Z := 517.

(** What [devm_mii_ctrl_get] can see of the platform device the phandle
    points to: whether a driver is bound ([pdev->dev.driver]) and the
    driver data ([platform_get_drvdata]), [None] for a null pointer. *)
Record platform_device : Type := {
  driver : bool;
  drvdata : option mii_ctrl
}.

(** The answers of the kernel services the function calls, taken as
    given: the status of [of_parse_phandle_with_fixed_args] and the
    single argument cell it fills in, the device
    [of_find_device_by_node] finds ([None] for a null pointer), and
    whether [devres_alloc] returns memory. *)
Record of_lookup : Type := {
  parse_status : Z;
  phandle_args0 : Z;
  found_device : option platform_device;
  devres_alloc_ok : bool
}.

(** The calls with an effect outside the function, in program order. *)
Inductive kcall : Type :=
| dev_err
| of_node_put
| put_device
| kfree
| devres_add (hdl : mii_ctrl_handle).

(** [devm_mii_ctrl_get].  The result is the handle, or the errno that
    [ERR_PTR] wraps; [goto put_dev] is the tail [put_device] of the
    trace. *)
Definition devm_mii_ctrl_get (k : of_lookup)
    : (Z + mii_ctrl_handle) * list kcall :=
  let err := parse_status k in
  if negb (err =? 0) then (inl err, [dev_err])
  else
    match found_device k with
    | None => (inl (- ENODEV), [of_node_put])
    | Some pdev =>
        (* Defer the probe if the device is not bound yet *)
        if negb (driver pdev) then
          (inl (- EPROBE_DEFER), [of_node_put; put_device])
        else
          match drvdata pdev with
          | None => (inl (- EINVAL), [of_node_put; put_device])
          | Some ctrl =>
              if num_port ctrl <=? phandle_args0 k then
                (inl (- EINVAL), [of_node_put; dev_err; put_device])
              else if negb (devres_alloc_ok k) then
                (inl (- ENOMEM), [of_node_put; put_device])
              else
                let hdl := {| ctrl := ctrl; port := phandle_args0 k |} in
                (inr hdl, [of_node_put; devres_add hdl])
          end
    end.

(** [mii_ctrl_release], the devres destructor of a handle. *)
Definition mii_ctrl_release (hdl : mii_ctrl_handle) : list kcall :=
  [put_device; kfree].

(** How often a trace drops the device reference, and whether it
    registers a handle. *)
Definition is_put_device (c : kcall) : bool :=
  match c with put_device => true | _ => false end.
Definition is_devres_add (c : kcall) : bool :=
  match c with devres_add _ => true | _ => false end.
Definition puts (t : list kcall) : nat := length (filter is_put_device t).
Definition adds (t : list kcall) : nat := length (filter is_devres_add t).

End MiiCtrlGet.

(** ** Vocabulary of the further properties *)

Module Vocabulary.
Import MiiCtrl Mdio.

(** The select code [mii_ctrl_set_interface] assigns to a mode. *)
Definition mode_select (iface : phy_interface_t) : Z :=
  match iface with
  | PHY_INTERFACE_MODE_GMII => MII_CTRL_SELECT_GMII
  | PHY_INTERFACE_MODE_MII => MII_CTRL_SELECT_MII
  | PHY_INTERFACE_MODE_RGMII => MII_CTRL_SELECT_RGMII
  | PHY_INTERFACE_MODE_RMII => MII_CTRL_SELECT_RMII
  | PHY_INTERFACE_MODE_other _ => 0
  end.

(** The select code as stored: reduced to its low bit when the local
    [port] of [mii_ctrl_set_interface] equals 1. *)
Definition narrowed (port_local select : Z) : Z :=
  if port_local =? 1 then Z.land select MII_CTRL_SELECT_PORT1_MASK else select.

(** A configuration word never pairs an MII or RMII select with a speed
    code above 100 Mb/s. *)
Definition speed_fits_select (word : Z) : Prop :=
  select_field word = MII_CTRL_SELECT_MII \/
  select_field word = MII_CTRL_SELECT_RMII ->
  speed_field word <= MII_CTRL_SPEED_100.

(** A configuration word has no bit set outside the select field
    (bits 1:0) and the speed field (bits 5:4). *)
Definition only_fields (word : Z) : Prop := Z.land word 0x33 = word.

(** A call of one of the two exported operations, and a run of calls
    against the register window, statuses dropped. *)
Inductive mii_call : Type :=
| Set_interface (port_local : Z) (hdl : mii_ctrl_handle) (iface : phy_interface_t)
| Set_speed (hdl : mii_ctrl_handle) (link_speed : Z).

Definition run_call (c : mii_call) (io : window) : Z * window :=
  match c with
  | Set_interface port_local hdl iface =>
      mii_ctrl_set_interface port_local hdl iface io
  | Set_speed hdl link_speed => mii_ctrl_set_speed hdl link_speed io
  end.

Fixpoint run_calls (cs : list mii_call) (io : window) : window :=
  match cs with
  | [] => io
  | c :: cs' => run_calls cs' (snd (run_call c io))
  end.


(** A device on which IND reads zero at poll [k] and not before, counted
    from the polls already made. *)
Definition idle_at (bus : mdio_bus) (dev : mdio_dev) (k : nat) : Prop :=
  ind_at bus (ind_polls dev + k) = 0 /\
  forall j, (j < k)%nat -> ind_at bus (ind_polls dev + j) <> 0.

(** A device on which the next [n] polls of IND all read nonzero. *)
Definition busy_for (bus : mdio_bus) (dev : mdio_dev) (n : nat) : Prop :=
  forall j, (j < n)%nat -> ind_at bus (ind_polls dev + j) <> 0.

(** Further concrete inputs: a bus that turns idle at its third poll, a
    bus that is idle for one poll only, and kernel answers for a bound
    ar7100 controller addressed with port 1. *)
Definition bus_idle_at_2 : mdio_bus :=
  {| ind_at := fun k => if (k =? 2)%nat then 0 else 1;
     status_at := fun _ => 0x5a5a |}.

Definition bus_idle_once : mdio_bus :=
  {| ind_at := fun k => if (k =? 0)%nat then 0 else 1;
     status_at := fun _ => 0 |}.

Definition bus_busy : mdio_bus :=
  {| ind_at := fun _ => 1; status_at := fun _ => 0 |}.

Definition lookup_ar7100 (arg : Z) : MiiCtrlGet.of_lookup :=
  {| MiiCtrlGet.parse_status := 0;
     MiiCtrlGet.phandle_args0 := arg;
     MiiCtrlGet.found_device :=
       Some {| MiiCtrlGet.driver := true;
               MiiCtrlGet.drvdata := Some ar7100_mii_ctrl |};
     MiiCtrlGet.devres_alloc_ok := true |}.

Definition lookup_unbound : MiiCtrlGet.of_lookup :=
  {| MiiCtrlGet.parse_status := 0;
     MiiCtrlGet.phandle_args0 := 0;
     MiiCtrlGet.found_device :=
       Some {| MiiCtrlGet.driver := false; MiiCtrlGet.drvdata := None |};
     MiiCtrlGet.devres_alloc_ok := true |}.

End Vocabulary.

(** * Properties of the MII mode controller *)

Module MiiCtrlSpec.
Import MiiCtrl.

(** ** Bit-field arithmetic *)

Lemma two_bit_range (x : Z) : 0 <= Z.land x 3 <= 3.
Proof.
  assert (Hmod : Z.land x 3 = x mod 4).
  { change 3 with (Z.ones 2). now rewrite Z.land_ones by lia. }
  rewrite Hmod.
  pose proof (Z.mod_pos_bound x 4). lia.
Qed.

Lemma two_bit_cases (x : Z) :
  0 <= x <= 3 -> x = 0 \/ x = 1 \/ x = 2 \/ x = 3.
Proof. lia. Qed.

Lemma select_field_range (val : Z) : 0 <= select_field val <= 3.
Proof. apply two_bit_range. Qed.

Lemma speed_field_range (val : Z) : 0 <= speed_field val <= 3.
Proof. apply two_bit_range. Qed.

Lemma compose_fields (select speed : Z) :
  0 <= select <= 3 -> 0 <= speed <= 3 ->
  select_field (compose select speed) = select /\
  speed_field (compose select speed) = speed.
Proof.
  intros Hs Hv.
  destruct (two_bit_cases _ Hs) as [-> | [-> | [-> | ->]]];
    destruct (two_bit_cases _ Hv) as [-> | [-> | [-> | ->]]];
    split; reflexivity.
Qed.

Lemma port_word_writel (hdl : mii_ctrl_handle) (val : Z) (io : window) :
  port_word hdl (writel val (port hdl * 4) io) = val.
Proof. unfold port_word, readl, writel. apply fn_lookup_insert. Qed.

(** ** [mii_ctrl_set_speed] by cases of the requested speed *)

Lemma set_speed_10 (hdl : mii_ctrl_handle) (io : window) :
  mii_ctrl_set_speed hdl 10 io =
  (0, writel (compose (select_field (port_word hdl io)) MII_CTRL_SPEED_100)
             (port hdl * 4) io).
Proof. reflexivity. Qed.

Lemma set_speed_100 (hdl : mii_ctrl_handle) (io : window) :
  mii_ctrl_set_speed hdl 100 io =
  (0, writel (compose (select_field (port_word hdl io)) MII_CTRL_SPEED_100)
             (port hdl * 4) io).
Proof. reflexivity. Qed.

Lemma set_speed_1000 (hdl : mii_ctrl_handle) (io : window) :
  mii_ctrl_set_speed hdl 1000 io =
  if (select_field (port_word hdl io) =? MII_CTRL_SELECT_MII)
     || (select_field (port_word hdl io) =? MII_CTRL_SELECT_RMII)
  then (- EINVAL, io)
  else (0, writel (compose (select_field (port_word hdl io)) MII_CTRL_SPEED_1000)
                  (port hdl * 4) io).
Proof.
  unfold mii_ctrl_set_speed, select_field, port_word, compose. simpl.
  destruct (_ || _); reflexivity.
Qed.

Lemma set_speed_other (hdl : mii_ctrl_handle) (link_speed : Z) (io : window) :
  link_speed <> 10 -> link_speed <> 100 -> link_speed <> 1000 ->
  mii_ctrl_set_speed hdl link_speed io = (- EINVAL, io).
Proof.
  intros H10 H100 H1000. unfold mii_ctrl_set_speed.
  apply Z.eqb_neq in H10, H100, H1000.
  rewrite H10, H100, H1000. reflexivity.
Qed.

(** Every run of [mii_ctrl_set_speed] is one of two shapes. *)
Lemma set_speed_shape (hdl : mii_ctrl_handle) (link_speed : Z) (io : window) :
  mii_ctrl_set_speed hdl link_speed io = (- EINVAL, io) \/
  exists speed, 0 <= speed <= 3 /\
    mii_ctrl_set_speed hdl link_speed io =
    (0, writel (compose (select_field (port_word hdl io)) speed)
               (port hdl * 4) io).
Proof.
  destruct (Z.eq_dec link_speed 10) as [-> | H10].
  { right. exists MII_CTRL_SPEED_100. split; [compute; intuition congruence |].
    apply set_speed_10. }
  destruct (Z.eq_dec link_speed 100) as [-> | H100].
  { right. exists MII_CTRL_SPEED_100. split; [compute; intuition congruence |].
    apply set_speed_100. }
  destruct (Z.eq_dec link_speed 1000) as [-> | H1000].
  { rewrite set_speed_1000. destruct (_ || _); [now left |].
    right. exists MII_CTRL_SPEED_1000. split; [compute; intuition congruence |].
    reflexivity. }
  left. now apply set_speed_other.
Qed.

(** ** [mii_ctrl_set_interface] *)

Lemma iface_speed_range (iface : phy_interface_t) (speed : Z) :
  0 <= speed <= 3 -> 0 <= iface_speed iface speed <= 3.
Proof.
  unfold iface_speed, MII_CTRL_SPEED_100. destruct iface; lia.
Qed.

Lemma set_interface_shape (port_local : Z) (hdl : mii_ctrl_handle)
    (iface : phy_interface_t) (io : window) :
  mii_ctrl_set_interface port_local hdl iface io = (- EINVAL, io) \/
  exists select, 0 <= select <= 3 /\
    mii_ctrl_set_interface port_local hdl iface io =
    (0, writel (compose select
                  (iface_speed iface (speed_field (port_word hdl io))))
               (port hdl * 4) io).
Proof.
  pose proof (speed_field_range (port_word hdl io)) as Hsp.
  unfold mii_ctrl_set_interface, iface_speed, compose.
  fold (port_word hdl io). fold (speed_field (port_word hdl io)).
  set (speed := speed_field (port_word hdl io)) in *.
  assert (Hclamp :
    (if MII_CTRL_SPEED_100 <? speed then MII_CTRL_SPEED_100 else speed)
    = Z.min speed MII_CTRL_SPEED_100).
  { unfold MII_CTRL_SPEED_100.
    destruct (Z.ltb_spec 1 speed); lia. }
  rewrite Hclamp.
  destruct iface; destruct (0 <? port_local); destruct (port_local =? 1);
    destruct (has_gbit (ctrl hdl)); simpl;
    try (left; reflexivity);
    right; eexists; (split; [| reflexivity]); compute; intuition congruence.
Qed.

(** ** Speed encoding *)

(** C2.  A request for 10 Mb/s does not write speed code 0: on every
    handle and every register content [mii_ctrl_set_speed] succeeds
    and stores the word whose speed field is 1, the code of 100 Mb/s,
    exactly as a request for 100 Mb/s does.  (Requests for 100 and
    1000 are encoded as 1 and 2, any other value is refused.) *)
Theorem set_speed_10_is_encoded_as_100 (hdl : mii_ctrl_handle) (io : window) :
  fst (mii_ctrl_set_speed hdl 10 io) = 0 /\
  speed_field (port_word hdl (snd (mii_ctrl_set_speed hdl 10 io)))
    = MII_CTRL_SPEED_100 /\
  speed_field (port_word hdl (snd (mii_ctrl_set_speed hdl 10 io)))
    <> MII_CTRL_SPEED_10 /\
  mii_ctrl_set_speed hdl 10 io = mii_ctrl_set_speed hdl 100 io.
Proof.
  rewrite set_speed_10, set_speed_100. simpl fst. simpl snd.
  rewrite port_word_writel.
  destruct (compose_fields (select_field (port_word hdl io)) MII_CTRL_SPEED_100)
    as [_ Hspeed];
    [apply select_field_range | compute; intuition congruence |].
  rewrite Hspeed. repeat split. discriminate.
Qed.

(** ** Port validation *)

(** The status of a GMII or MII request is decided by the content of the
    local [port] (and, for GMII, by the capability flag); the port of
    the handle has no part in it. *)
Lemma set_interface_status_ignores_handle_port (port_local : Z)
    (hdl : mii_ctrl_handle) (io : window) :
  fst (mii_ctrl_set_interface port_local hdl PHY_INTERFACE_MODE_GMII io)
  = (if 0 <? port_local then - EINVAL
     else if has_gbit (ctrl hdl) then 0 else - EINVAL) /\
  fst (mii_ctrl_set_interface port_local hdl PHY_INTERFACE_MODE_MII io)
  = (if 0 <? port_local then - EINVAL else 0).
Proof.
  unfold mii_ctrl_set_interface.
  destruct (0 <? port_local), (has_gbit (ctrl hdl)); split; reflexivity.
Qed.

(** C3.  The GMII/MII port test does not look at the handle: when the
    unassigned local [port] happens to hold 0, [mii_ctrl_set_interface]
    accepts GMII and MII on an ar7100 handle bound to any port, port 1
    included, and writes that port's register. *)
Theorem set_interface_gmii_mii_accepted_on_any_port (p : Z) (io : window) :
  mii_ctrl_set_interface 0 (hdl_ar7100 p) PHY_INTERFACE_MODE_GMII io =
    (0, writel (compose MII_CTRL_SELECT_GMII (speed_field (io (p * 4))))
               (p * 4) io) /\
  mii_ctrl_set_interface 0 (hdl_ar7100 p) PHY_INTERFACE_MODE_MII io =
    (0, writel (compose MII_CTRL_SELECT_MII
                  (Z.min (speed_field (io (p * 4))) MII_CTRL_SPEED_100))
               (p * 4) io).
Proof.
  split; [reflexivity |].
  unfold mii_ctrl_set_interface, readl. simpl.
  change (Z.land (Z.shiftr (io (p * 4)) MII_CTRL_SPEED_SHIFT)
                 MII_CTRL_SPEED_MASK) with (speed_field (io (p * 4))).
  generalize (speed_field (io (p * 4))). intros speed.
  destruct (Z.ltb_spec MII_CTRL_SPEED_100 speed) as [Hlt | Hge].
  - rewrite Z.min_r by lia. reflexivity.
  - rewrite Z.min_l by lia. reflexivity.
Qed.

(** ** Gigabit requests *)

(** C7.  A request for 1000 Mb/s is refused with [-EINVAL] when the
    select field stored in the port's word is MII or RMII; with any
    other select it succeeds and the stored word has speed code 2. *)
Theorem set_speed_1000_select_gate (hdl : mii_ctrl_handle) (io : window) :
  (select_field (port_word hdl io) = MII_CTRL_SELECT_MII \/
   select_field (port_word hdl io) = MII_CTRL_SELECT_RMII ->
   mii_ctrl_set_speed hdl 1000 io = (- EINVAL, io)) /\
  (select_field (port_word hdl io) <> MII_CTRL_SELECT_MII ->
   select_field (port_word hdl io) <> MII_CTRL_SELECT_RMII ->
   fst (mii_ctrl_set_speed hdl 1000 io) = 0 /\
   speed_field (port_word hdl (snd (mii_ctrl_set_speed hdl 1000 io)))
     = MII_CTRL_SPEED_1000).
Proof.
  rewrite set_speed_1000. split.
  - intros [H | H]; rewrite H; reflexivity.
  - intros Hmii Hrmii.
    apply Z.eqb_neq in Hmii, Hrmii. rewrite Hmii, Hrmii. simpl.
    split; [reflexivity |].
    rewrite port_word_writel.
    apply compose_fields;
      [apply select_field_range | compute; intuition congruence].
Qed.

Lemma set_speed_1000_select_gate_witness :
  mii_ctrl_set_speed (hdl_ar7100 0) 1000 (all_ports 3)
    = (- EINVAL, all_ports 3) /\
  fst (mii_ctrl_set_speed (hdl_ar7100 0) 1000 (all_ports 2)) = 0.
Proof.
  split.
  - apply (proj1 (set_speed_1000_select_gate (hdl_ar7100 0) (all_ports 3))).
    right. reflexivity.
  - apply (proj2 (set_speed_1000_select_gate (hdl_ar7100 0) (all_ports 2)));
      discriminate.
Defined.

(** C9.  [mii_ctrl_set_speed] never reads the capability flag: two
    handles on the same port give the same result whatever their
    controllers are, and on every handle, those with [has_gbit = false]
    included, a request for 1000 Mb/s succeeds and stores speed code 2
    whenever the stored select is GMII or RGMII. *)
Theorem set_speed_1000_ignores_has_gbit :
  (forall (c1 c2 : mii_ctrl) (p link_speed : Z) (io : window),
     mii_ctrl_set_speed {| ctrl := c1; port := p |} link_speed io =
     mii_ctrl_set_speed {| ctrl := c2; port := p |} link_speed io) /\
  (forall (hdl : mii_ctrl_handle) (io : window),
     select_field (port_word hdl io) = MII_CTRL_SELECT_GMII \/
     select_field (port_word hdl io) = MII_CTRL_SELECT_RGMII ->
     fst (mii_ctrl_set_speed hdl 1000 io) = 0 /\
     speed_field (port_word hdl (snd (mii_ctrl_set_speed hdl 1000 io)))
       = MII_CTRL_SPEED_1000).
Proof.
  split; [reflexivity |].
  intros hdl io Hsel. rewrite set_speed_1000.
  assert (Hgate :
    (select_field (port_word hdl io) =? MII_CTRL_SELECT_MII)
    || (select_field (port_word hdl io) =? MII_CTRL_SELECT_RMII) = false)
    by (destruct Hsel as [H | H]; rewrite H; reflexivity).
  rewrite Hgate. simpl. split; [reflexivity |].
  rewrite port_word_writel.
  apply compose_fields;
    [apply select_field_range | compute; intuition congruence].
Qed.

Lemma set_speed_1000_ignores_has_gbit_witness :
  has_gbit (ctrl (hdl_ar7130 0)) = false /\
  fst (mii_ctrl_set_speed (hdl_ar7130 0) 1000 (all_ports 2)) = 0 /\
  speed_field
    (port_word (hdl_ar7130 0)
       (snd (mii_ctrl_set_speed (hdl_ar7130 0) 1000 (all_ports 2))))
    = MII_CTRL_SPEED_1000.
Proof.
  split; [reflexivity |].
  apply (proj2 set_speed_1000_ignores_has_gbit (hdl_ar7130 0) (all_ports 2)).
  right. reflexivity.
Defined.

(** ** Independence of the two fields *)

(** C8, as stated, fails for [mii_ctrl_set_interface]: on port 0 of an
    ar7100 whose word holds GMII at 1000 Mb/s (0x20), selecting RMII
    succeeds and the speed field goes from 2 to 1. *)
Lemma set_interface_rmii_lowers_stored_speed :
  let hdl := hdl_ar7100 0 in
  let io := all_ports 0x20 in
  let r := mii_ctrl_set_interface 0 hdl PHY_INTERFACE_MODE_RMII io in
  fst r = 0 /\
  speed_field (port_word hdl io) = 2 /\
  speed_field (port_word hdl (snd r)) = 1.
Proof. vm_compute. repeat split. Qed.

(** C8, amended.  A successful [mii_ctrl_set_speed] leaves the select
    field of the port's word as it was.  A successful
    [mii_ctrl_set_interface] leaves the speed field as it was for GMII
    and RGMII; for MII and RMII it stores the smaller of the old speed
    code and 1 (100 Mb/s), so a stored code of 0 or 1 is kept and a
    larger one is lowered to 1.  This holds whatever the unassigned
    local [port] contains. *)
Theorem set_speed_keeps_select_set_interface_clamps_speed :
  (forall (hdl : mii_ctrl_handle) (link_speed : Z) (io : window),
     fst (mii_ctrl_set_speed hdl link_speed io) = 0 ->
     select_field (port_word hdl (snd (mii_ctrl_set_speed hdl link_speed io)))
     = select_field (port_word hdl io)) /\
  (forall (port_local : Z) (hdl : mii_ctrl_handle) (iface : phy_interface_t)
          (io : window),
     fst (mii_ctrl_set_interface port_local hdl iface io) = 0 ->
     speed_field
       (port_word hdl (snd (mii_ctrl_set_interface port_local hdl iface io)))
     = match iface with
       | PHY_INTERFACE_MODE_MII | PHY_INTERFACE_MODE_RMII =>
           Z.min (speed_field (port_word hdl io)) MII_CTRL_SPEED_100
       | _ => speed_field (port_word hdl io)
       end).
Proof.
  split.
  - intros hdl link_speed io.
    destruct (set_speed_shape hdl link_speed io) as [-> | (speed & Hsp & ->)];
      simpl; [discriminate |].
    intros _. rewrite port_word_writel.
    now apply compose_fields; [apply select_field_range |].
  - intros port_local hdl iface io.
    destruct (set_interface_shape port_local hdl iface io)
      as [-> | (select & Hsel & ->)]; simpl; [discriminate |].
    intros _. rewrite port_word_writel.
    change (match iface with
            | PHY_INTERFACE_MODE_MII | PHY_INTERFACE_MODE_RMII =>
                Z.min (speed_field (port_word hdl io)) MII_CTRL_SPEED_100
            | _ => speed_field (port_word hdl io)
            end) with (iface_speed iface (speed_field (port_word hdl io))).
    apply compose_fields; [assumption |].
    apply iface_speed_range, speed_field_range.
Qed.

Lemma set_speed_keeps_select_set_interface_clamps_speed_witness :
  select_field
    (port_word (hdl_ar7100 0)
       (snd (mii_ctrl_set_speed (hdl_ar7100 0) 1000 (all_ports 2)))) = 2 /\
  speed_field
    (port_word (hdl_ar7100 0)
       (snd (mii_ctrl_set_interface 0 (hdl_ar7100 0) PHY_INTERFACE_MODE_RMII
               (all_ports 0x20)))) = 1.
Proof.
  split.
  - apply (proj1 set_speed_keeps_select_set_interface_clamps_speed
             (hdl_ar7100 0) 1000 (all_ports 2)).
    reflexivity.
  - apply (proj2 set_speed_keeps_select_set_interface_clamps_speed
             0 (hdl_ar7100 0) PHY_INTERFACE_MODE_RMII (all_ports 0x20)).
    reflexivity.
Defined.

(** ** Errors come before the write *)

(** C10.  Both operations return either 0 or [-EINVAL], and a call
    that returns [-EINVAL] hands back the register window it was
    given: no register has been written. *)
Theorem invalid_configuration_writes_nothing :
  (forall (port_local : Z) (hdl : mii_ctrl_handle) (iface : phy_interface_t)
          (io : window),
     (fst (mii_ctrl_set_interface port_local hdl iface io) = 0 \/
      fst (mii_ctrl_set_interface port_local hdl iface io) = - EINVAL) /\
     (fst (mii_ctrl_set_interface port_local hdl iface io) = - EINVAL ->
      snd (mii_ctrl_set_interface port_local hdl iface io) = io)) /\
  (forall (hdl : mii_ctrl_handle) (link_speed : Z) (io : window),
     (fst (mii_ctrl_set_speed hdl link_speed io) = 0 \/
      fst (mii_ctrl_set_speed hdl link_speed io) = - EINVAL) /\
     (fst (mii_ctrl_set_speed hdl link_speed io) = - EINVAL ->
      snd (mii_ctrl_set_speed hdl link_speed io) = io)).
Proof.
  split.
  - intros port_local hdl iface io.
    destruct (set_interface_shape port_local hdl iface io)
      as [-> | (select & _ & ->)]; simpl.
    + split; [now right | reflexivity].
    + split; [now left | discriminate].
  - intros hdl link_speed io.
    destruct (set_speed_shape hdl link_speed io) as [-> | (speed & _ & ->)];
      simpl.
    + split; [now right | reflexivity].
    + split; [now left | discriminate].
Qed.

Lemma invalid_configuration_writes_nothing_witness :
  snd (mii_ctrl_set_interface 1 (hdl_ar7100 1) PHY_INTERFACE_MODE_GMII
         (all_ports 0x12)) = all_ports 0x12 /\
  snd (mii_ctrl_set_speed (hdl_ar7100 0) 1000 (all_ports 0x13))
    = all_ports 0x13.
Proof.
  split.
  - apply (proj1 invalid_configuration_writes_nothing
             1 (hdl_ar7100 1) PHY_INTERFACE_MODE_GMII (all_ports 0x12)).
    reflexivity.
  - apply (proj2 invalid_configuration_writes_nothing
             (hdl_ar7100 0) 1000 (all_ports 0x13)).
    reflexivity.
Defined.

End MiiCtrlSpec.

(** * Properties of the MDIO bus controller *)

Module MdioSpec.
Import Mdio.

(** ** Divider selection *)

(** Sanity: with a 40 MHz reference the scan stops inside the table, at
    the first divider that brings the clock down to 2.5 MHz. *)
Example get_divider_40mhz : ag71xx_mdio_get_divider am_40mhz = Done 20.
Proof. reflexivity. Qed.

Lemma div_table_at_inside (am : ag71xx_mdio) (i : nat) (d : Z) :
  div_table (hw am) !! i = Some d -> div_table_at am i = Done d.
Proof. intros H. unfold div_table_at. now rewrite H. Qed.

Lemma div_table_at_outside (am : ag71xx_mdio) (i : nat) :
  (length (div_table (hw am)) <= i)%nat ->
  div_table_at am i = Fault (OutOfBounds i).
Proof.
  intros H. unfold div_table_at.
  now rewrite (proj2 (lookup_ge_None _ _) H).
Qed.

(** The scan returns the first acceptable divider it meets, provided the
    loop is given enough iterations to get there. *)
Lemma divider_scan_first_match (am : ag71xx_mdio) (d : Z) :
  forall (k todo i : nat),
    (i <= k < i + todo)%nat ->
    div_table (hw am) !! k = Some d ->
    d <> 0 -> slow_enough am d ->
    (forall j e, (i <= j < k)%nat -> div_table (hw am) !! j = Some e ->
                 e <> 0 /\ ~ slow_enough am e) ->
    divider_scan am (ref_clk am) todo i = Done d.
Proof.
  intros k todo. revert k.
  induction todo as [| todo IH]; intros k i Hik Hk Hd Hok Hbefore; [lia |].
  simpl. destruct (Nat.eq_dec i k) as [-> | Hne].
  - rewrite (div_table_at_inside _ _ _ Hk).
    apply Z.eqb_neq in Hd. rewrite Hd.
    unfold slow_enough in Hok. apply Z.leb_le in Hok. now rewrite Hok.
  - assert (Hi : (i < length (div_table (hw am)))%nat).
    { apply lookup_lt_Some in Hk. lia. }
    destruct (lookup_lt_is_Some_2 _ _ Hi) as [e He].
    rewrite (div_table_at_inside _ _ _ He).
    destruct (Hbefore i e ltac:(lia) He) as [He0 Hfast].
    apply Z.eqb_neq in He0. rewrite He0.
    unfold slow_enough in Hfast.
    destruct (Z.leb_spec (ref_clk am / e) (mdio_rate am)); [contradiction |].
    apply (IH k); auto; [lia |].
    intros j e' Hj. apply Hbefore. lia.
Qed.

(** When no divider of the table is acceptable, a scan that is allowed
    to run beyond the last entry faults on the first index outside. *)
Lemma divider_scan_no_match (am : ag71xx_mdio) :
  (forall j e, div_table (hw am) !! j = Some e ->
               e <> 0 /\ ~ slow_enough am e) ->
  forall (todo i : nat),
    (i <= length (div_table (hw am)) < i + todo)%nat ->
    divider_scan am (ref_clk am) todo i
    = Fault (OutOfBounds (length (div_table (hw am)))).
Proof.
  intros Hnone todo.
  induction todo as [| todo IH]; intros i Hi; [lia |].
  simpl. destruct (Nat.eq_dec i (length (div_table (hw am)))) as [-> | Hne].
  - now rewrite div_table_at_outside.
  - assert (Hlt : (i < length (div_table (hw am)))%nat) by lia.
    destruct (lookup_lt_is_Some_2 _ _ Hlt) as [e He].
    rewrite (div_table_at_inside _ _ _ He).
    destruct (Hnone i e He) as [He0 Hfast].
    apply Z.eqb_neq in He0. rewrite He0.
    unfold slow_enough in Hfast.
    destruct (Z.leb_spec (ref_clk am / e) (mdio_rate am)); [contradiction |].
    apply IH. lia.
Qed.

(** C1.  What [ag71xx_mdio_get_divider] does on a table whose recorded
    size is its length, whose entries are nonzero, with a nonzero
    reference clock: if some entry is acceptable, the first such entry
    is returned and only indices inside the table are read; if no entry
    is acceptable, the loop bound [i <= div_table_size] sends the scan
    to index [div_table_size], one past the last entry, and the read of
    [div_table[div_table_size]] is outside the array.  The last entry is
    not returned. *)
Theorem get_divider_reads_past_table (am : ag71xx_mdio) :
  ref_clk am <> 0 ->
  div_table (hw am) <> [] ->
  div_table_size (hw am) = length (div_table (hw am)) ->
  (forall j e, div_table (hw am) !! j = Some e -> e <> 0) ->
  (forall k d,
     div_table (hw am) !! k = Some d -> slow_enough am d ->
     (forall j e, (j < k)%nat -> div_table (hw am) !! j = Some e ->
                  ~ slow_enough am e) ->
     ag71xx_mdio_get_divider am = Done d) /\
  ((forall j e, div_table (hw am) !! j = Some e -> ~ slow_enough am e) ->
   ag71xx_mdio_get_divider am
   = Fault (OutOfBounds (length (div_table (hw am))))).
Proof.
  intros Hclk _ Hsize Hnz.
  unfold ag71xx_mdio_get_divider, clk_get_rate.
  apply Z.eqb_neq in Hclk. rewrite Hclk, Hsize. split.
  - intros k d Hk Hok Hbefore.
    apply (divider_scan_first_match am d k); eauto.
    + apply lookup_lt_Some in Hk. lia.
    + intros j e Hj He. split; [eauto | apply (Hbefore j); [lia | assumption]].
  - intros Hnone. apply divider_scan_no_match; [| lia].
    intros j e He. split; eauto.
Qed.

Lemma get_divider_reads_past_table_witness :
  ag71xx_mdio_get_divider am_200mhz = Fault (OutOfBounds 7).
Proof.
  refine (proj2 (get_divider_reads_past_table am_200mhz _ _ _ _) _).
  - discriminate.
  - discriminate.
  - reflexivity.
  - intros j e H.
    do 7 (destruct j as [| j]; [inversion H; discriminate |]).
    discriminate.
  - intros j e H.
    do 7 (destruct j as [| j];
          [inversion H; subst e; vm_compute; intros Hle; now apply Hle |]).
    discriminate.
Defined.

(** With a zero reference clock the table is not read at all: the
    guard returns [-EINVAL], which the [u32] return type turns into
    0xffffffea. *)
Lemma get_divider_zero_clock (am : ag71xx_mdio) :
  ref_clk am = 0 -> ag71xx_mdio_get_divider am = Done 0xffffffea.
Proof.
  intros Hclk. unfold ag71xx_mdio_get_divider, clk_get_rate.
  now rewrite Hclk.
Qed.

(** ** Reset *)

(** [ag71xx_mdio_reset] has a single [return], and it returns 0. *)
Lemma reset_never_reports_an_error (bus : mdio_bus) (am : ag71xx_mdio)
    (dev dev' : mdio_dev) (ret : Z) :
  ag71xx_mdio_reset bus am dev = Done (ret, dev') -> ret = 0.
Proof.
  unfold ag71xx_mdio_reset.
  destruct (ag71xx_mdio_get_divider am); [| discriminate].
  intros H. now inversion H.
Qed.

(** C4.  With a reference clock of rate zero [ag71xx_mdio_reset] does
    not report an error: whatever the table, the target rate and the
    device state, it returns 0, after programming CFG twice with the
    [u32] image of [-EINVAL] (0xffffffea, which has the reset bit set)
    as if it were a divider. *)
Theorem reset_zero_clock_returns_success (bus : mdio_bus) (rate : Z)
    (table : ag71xx_mdio_hw) (dev : mdio_dev) :
  exists dev',
    ag71xx_mdio_reset bus {| ref_clk := 0; mdio_rate := rate; hw := table |} dev
    = Done (0, dev') /\
    wlog dev' = wlog dev ++ [(AG71XX_REG_MII_CFG, 0xffffffea);
                             (AG71XX_REG_MII_CFG, 0xffffffea)] /\
    regs dev' AG71XX_REG_MII_CFG = u32 (- EINVAL).
Proof.
  eexists. split; [reflexivity |]. split.
  - simpl. now rewrite <- app_assoc.
  - reflexivity.
Qed.

(** ** Waiting for the bus *)

Lemma after_polls_after_polls (p w p' w' : nat) (dev : mdio_dev) :
  after_polls p' w' (after_polls p w dev) = after_polls (p + p') (w + w') dev.
Proof. unfold after_polls. simpl. f_equal; lia. Qed.

(** One turn of the polling loop. *)
Lemma wait_busy_loop_step (bus : mdio_bus) (todo : nat) (dev : mdio_dev) :
  wait_busy_loop bus (S todo) dev =
  if ind_at bus (ind_polls dev) =? 0 then (0, after_polls 1 0 dev)
  else wait_busy_loop bus todo (after_polls 1 1 dev).
Proof.
  assert (H10 : after_polls 1 0 dev
    = {| regs := regs dev; ind_polls := S (ind_polls dev);
         delayed := delayed dev; wlog := wlog dev |})
    by (unfold after_polls; f_equal; lia).
  assert (H11 : after_polls 1 1 dev
    = {| regs := regs dev; ind_polls := S (ind_polls dev);
         delayed := delayed dev + AG71XX_MDIO_DELAY; wlog := wlog dev |})
    by (unfold after_polls; f_equal; lia).
  rewrite H10, H11.
  change (wait_busy_loop bus (S todo) dev) with
    (let '(busy, dev1) := ag71xx_mdio_rr bus AG71XX_REG_MII_IND dev in
     (if busy =? 0 then mret 0
      else udelay AG71XX_MDIO_DELAY ;; wait_busy_loop bus todo) dev1).
  simpl. destruct (ind_at bus (ind_polls dev) =? 0); reflexivity.
Qed.

(** The loop stops at the first poll that reads IND as zero. *)
Lemma wait_busy_loop_idle (bus : mdio_bus) :
  forall (todo k : nat) (dev : mdio_dev),
    (k < todo)%nat ->
    ind_at bus (ind_polls dev + k) = 0 ->
    (forall j, (j < k)%nat -> ind_at bus (ind_polls dev + j) <> 0) ->
    wait_busy_loop bus todo dev = (0, after_polls (S k) k dev).
Proof.
  induction todo as [| todo IH]; intros k dev Hk Hzero Hbusy; [lia |].
  rewrite wait_busy_loop_step. destruct k as [| k].
  - rewrite Nat.add_0_r in Hzero. now rewrite Hzero.
  - specialize (Hbusy 0%nat ltac:(lia)) as Hfirst.
    rewrite Nat.add_0_r in Hfirst. apply Z.eqb_neq in Hfirst. rewrite Hfirst.
    rewrite (IH k).
    + now rewrite after_polls_after_polls.
    + lia.
    + simpl. now replace (ind_polls dev + 1 + k)%nat with (ind_polls dev + S k)%nat by lia.
    + intros j Hj. simpl.
      replace (ind_polls dev + 1 + j)%nat with (ind_polls dev + S j)%nat by lia.
      apply Hbusy. lia.
Qed.

(** The loop runs out when every poll reads IND as nonzero. *)
Lemma wait_busy_loop_timeout (bus : mdio_bus) :
  forall (todo : nat) (dev : mdio_dev),
    (forall j, (j < todo)%nat -> ind_at bus (ind_polls dev + j) <> 0) ->
    wait_busy_loop bus todo dev = (- ETIMEDOUT, after_polls todo todo dev).
Proof.
  induction todo as [| todo IH]; intros dev Hbusy.
  - destruct dev. unfold after_polls. simpl.
    unfold mret, io_ret. do 2 f_equal; lia.
  - rewrite wait_busy_loop_step.
    specialize (Hbusy 0%nat ltac:(lia)) as Hfirst.
    rewrite Nat.add_0_r in Hfirst. apply Z.eqb_neq in Hfirst. rewrite Hfirst.
    rewrite IH.
    + now rewrite after_polls_after_polls.
    + intros j Hj. simpl.
      replace (ind_polls dev + 1 + j)%nat with (ind_polls dev + S j)%nat by lia.
      apply Hbusy. lia.
Qed.

(** Among the first [n] values of a sequence either none is zero or
    there is a first zero. *)
Lemma first_zero_or_none (f : nat -> Z) (n : nat) :
  (forall j, (j < n)%nat -> f j <> 0) \/
  (exists k, (k < n)%nat /\ f k = 0 /\ forall j, (j < k)%nat -> f j <> 0).
Proof.
  induction n as [| n [Hnone | (k & Hk & Hz & Hfirst)]].
  - left. intros j Hj. lia.
  - destruct (Z.eq_dec (f n) 0) as [Hz | Hnz].
    + right. exists n. repeat split; [lia | assumption |].
      intros j Hj. now apply Hnone.
    + left. intros j Hj.
      destruct (Nat.eq_dec j n) as [-> | Hne]; [assumption |].
      apply Hnone. lia.
  - right. exists k. repeat split; [lia | assumption | assumption].
Qed.

(** [ag71xx_mdio_wait_busy] only moves the poll counter and the clock. *)
Lemma wait_busy_cases (bus : mdio_bus) (dev : mdio_dev) :
  (exists polls waits,
     ag71xx_mdio_wait_busy bus dev = (0, after_polls polls waits dev)) \/
  ag71xx_mdio_wait_busy bus dev
  = (- ETIMEDOUT, after_polls AG71XX_MDIO_RETRY AG71XX_MDIO_RETRY dev).
Proof.
  unfold ag71xx_mdio_wait_busy.
  destruct (first_zero_or_none (fun j => ind_at bus (ind_polls dev + j))
              AG71XX_MDIO_RETRY) as [Hnone | (k & Hk & Hz & Hfirst)].
  - right. now apply wait_busy_loop_timeout.
  - left. exists (S k), k. now apply wait_busy_loop_idle.
Qed.

(** C5, as stated, fails: on a bus whose IND register reads 4 (INVALID
    set, BUSY clear) the busy bit is clear at the very first poll, yet
    [ag71xx_mdio_wait_busy] polls 1000 times and returns [-ETIMEDOUT]. *)
Lemma wait_busy_times_out_with_busy_bit_clear :
  Z.testbit (ind_at bus_invalid_only 0) 0 = false /\
  Z.land (ind_at bus_invalid_only 0) MII_IND_BUSY = 0 /\
  fst (ag71xx_mdio_wait_busy bus_invalid_only dev_power_on) = - ETIMEDOUT /\
  ind_polls (snd (ag71xx_mdio_wait_busy bus_invalid_only dev_power_on))
  = 1000%nat.
Proof. vm_compute. repeat split. Qed.

(** C5, amended.  [ag71xx_mdio_wait_busy] tests the whole IND word, not
    the busy bit.  It returns 0 at the first poll that reads IND as
    zero, having made no further poll; it returns [-ETIMEDOUT] when all
    [AG71XX_MDIO_RETRY] = 1000 polls read a nonzero word, after exactly
    1000 polls; and it returns [-ETIMEDOUT] in no other case. *)
Theorem wait_busy_returns_when_ind_reads_zero (bus : mdio_bus) (dev : mdio_dev) :
  (forall k : nat,
     (k < AG71XX_MDIO_RETRY)%nat ->
     ind_at bus (ind_polls dev + k) = 0 ->
     (forall j, (j < k)%nat -> ind_at bus (ind_polls dev + j) <> 0) ->
     ag71xx_mdio_wait_busy bus dev = (0, after_polls (S k) k dev)) /\
  ((forall j, (j < AG71XX_MDIO_RETRY)%nat ->
              ind_at bus (ind_polls dev + j) <> 0) ->
   ag71xx_mdio_wait_busy bus dev
   = (- ETIMEDOUT, after_polls AG71XX_MDIO_RETRY AG71XX_MDIO_RETRY dev)) /\
  (fst (ag71xx_mdio_wait_busy bus dev) = - ETIMEDOUT ->
   forall j, (j < AG71XX_MDIO_RETRY)%nat ->
             ind_at bus (ind_polls dev + j) <> 0).
Proof.
  unfold ag71xx_mdio_wait_busy. split; [| split].
  - intros k Hk Hz Hfirst. now apply wait_busy_loop_idle.
  - apply wait_busy_loop_timeout.
  - destruct (first_zero_or_none (fun j => ind_at bus (ind_polls dev + j))
                AG71XX_MDIO_RETRY) as [Hnone | (k & Hk & Hz & Hfirst)];
      [intros _; exact Hnone |].
    rewrite (wait_busy_loop_idle bus _ k dev Hk Hz Hfirst). discriminate.
Qed.

Lemma wait_busy_returns_when_ind_reads_zero_witness :
  ag71xx_mdio_wait_busy (bus_idle 0) dev_power_on
  = (0, after_polls 1 0 dev_power_on).
Proof.
  apply (proj1 (wait_busy_returns_when_ind_reads_zero (bus_idle 0) dev_power_on)
           0%nat).
  - unfold AG71XX_MDIO_RETRY. lia.
  - reflexivity.
  - intros j Hj. lia.
Defined.

(** ** Register read *)

Lemma wr_written (bus : mdio_bus) (reg value : Z) (dev : mdio_dev) :
  reg <> AG71XX_REG_MII_IND ->
  ag71xx_mdio_wr bus reg value dev = (tt, written reg (u32 value) dev).
Proof.
  intros Hreg. apply Z.eqb_neq in Hreg.
  unfold ag71xx_mdio_wr, __raw_readl, __raw_writel, mbind, io_bind, mret, io_ret.
  simpl. rewrite Hreg.
  destruct (reg =? AG71XX_REG_MII_STATUS); reflexivity.
Qed.

(** The ADDR word fits sixteen bits, so its conversion to [u32] is the
    identity. *)
Lemma mii_addr_range (addr reg : Z) : 0 <= mii_addr addr reg < 2 ^ 16.
Proof.
  unfold mii_addr.
  assert (Ha : 0 <= Z.land addr 0xff < 256).
  { change 0xff with (Z.ones 8). rewrite Z.land_ones by lia.
    apply Z.mod_pos_bound. lia. }
  assert (Hr : 0 <= Z.land reg 0xff < 256).
  { change 0xff with (Z.ones 8). rewrite Z.land_ones by lia.
    apply Z.mod_pos_bound. lia. }
  rewrite Z.shiftl_mul_pow2 by lia. change (2 ^ 8) with 256.
  set (a := Z.land addr 0xff) in *. set (r := Z.land reg 0xff) in *.
  pose proof (Z.add_lor_land (a * 256) r) as Hadd.
  assert (0 <= Z.land (a * 256) r) by (apply Z.land_nonneg; lia).
  assert (0 <= Z.lor (a * 256) r) by (apply Z.lor_nonneg; lia).
  change (2 ^ 16) with 65536. lia.
Qed.

Lemma u32_mii_addr (addr reg : Z) : u32 (mii_addr addr reg) = mii_addr addr reg.
Proof.
  unfold u32. apply Z.mod_small.
  pose proof (mii_addr_range addr reg).
  change (2 ^ 16) with 65536 in *. change (2 ^ 32) with 4294967296. lia.
Qed.

(** [ag71xx_mdio_read] laid out along its two waits. *)
Lemma read_unfold (bus : mdio_bus) (addr reg : Z) (dev : mdio_dev) :
  ag71xx_mdio_read bus addr reg dev =
  let '(err, dev1) := ag71xx_mdio_wait_busy bus dev in
  if negb (err =? 0) then (err, dev1)
  else
    let dev2 :=
      written AG71XX_REG_MII_CMD MII_CMD_READ
        (written AG71XX_REG_MII_ADDR (mii_addr addr reg)
           (written AG71XX_REG_MII_CMD MII_CMD_WRITE dev1)) in
    let '(err, dev3) := ag71xx_mdio_wait_busy bus dev2 in
    if negb (err =? 0) then (err, dev3)
    else (Z.land (status_at bus (ind_polls dev3)) 0xffff,
          written AG71XX_REG_MII_CMD MII_CMD_WRITE dev3).
Proof.
  unfold ag71xx_mdio_read, mbind, io_bind, mret, io_ret.
  destruct (ag71xx_mdio_wait_busy bus dev) as [err dev1].
  destruct (negb (err =? 0)); [reflexivity |].
  rewrite !wr_written by discriminate.
  change (Z.lor (Z.shiftl (Z.land addr 255) MII_ADDR_SHIFT) (Z.land reg 255))
    with (mii_addr addr reg).
  rewrite u32_mii_addr.
  change (u32 MII_CMD_WRITE) with MII_CMD_WRITE.
  change (u32 MII_CMD_READ) with MII_CMD_READ.
  destruct (ag71xx_mdio_wait_busy bus _) as [err' dev3].
  destruct (negb (err' =? 0)); [reflexivity |].
  change (ag71xx_mdio_rr bus AG71XX_REG_MII_STATUS dev3)
    with (status_at bus (ind_polls dev3), dev3).
  cbv iota beta. rewrite wr_written by discriminate. reflexivity.
Qed.

(** C6.  A call of [ag71xx_mdio_read] that does not return an error
    (its result is not negative) has written, in this order, CMD :=
    write-mode, ADDR := ((addr & 0xff) << 8) | (reg & 0xff), CMD :=
    read-mode and CMD := write-mode, and nothing else; it returns the
    STATUS word read after the second wait, masked to sixteen bits; and
    it leaves CMD in write-mode and ADDR holding the packed pair. *)
Theorem read_packs_address_masks_status_restores_cmd
    (bus : mdio_bus) (addr reg : Z) (dev : mdio_dev) :
  0 <= fst (ag71xx_mdio_read bus addr reg dev) ->
  wlog (snd (ag71xx_mdio_read bus addr reg dev))
  = wlog dev ++ [(AG71XX_REG_MII_CMD, MII_CMD_WRITE);
                 (AG71XX_REG_MII_ADDR, mii_addr addr reg);
                 (AG71XX_REG_MII_CMD, MII_CMD_READ);
                 (AG71XX_REG_MII_CMD, MII_CMD_WRITE)] /\
  fst (ag71xx_mdio_read bus addr reg dev)
  = Z.land (status_at bus (ind_polls (snd (ag71xx_mdio_read bus addr reg dev))))
           0xffff /\
  regs (snd (ag71xx_mdio_read bus addr reg dev)) AG71XX_REG_MII_CMD
  = MII_CMD_WRITE /\
  regs (snd (ag71xx_mdio_read bus addr reg dev)) AG71XX_REG_MII_ADDR
  = mii_addr addr reg.
Proof.
  rewrite read_unfold.
  destruct (wait_busy_cases bus dev) as [(p1 & w1 & ->) | ->];
    [change (negb (0 =? 0)) with false
    | change (negb (- ETIMEDOUT =? 0)) with true];
    cbv iota beta zeta; [| simpl fst; unfold ETIMEDOUT; lia].
  match goal with
  | |- context [ag71xx_mdio_wait_busy bus ?d] =>
      destruct (wait_busy_cases bus d) as [(p2 & w2 & ->) | ->]
  end;
    [change (negb (0 =? 0)) with false
    | change (negb (- ETIMEDOUT =? 0)) with true];
    cbv iota beta; [| simpl fst; unfold ETIMEDOUT; lia].
  intros _. simpl. repeat split.
  now rewrite <- !app_assoc.
Qed.

Lemma read_packs_address_masks_status_restores_cmd_witness :
  fst (ag71xx_mdio_read (bus_idle 0x1234abcd) 3 2 dev_power_on) = 0xabcd /\
  regs (snd (ag71xx_mdio_read (bus_idle 0x1234abcd) 3 2 dev_power_on))
       AG71XX_REG_MII_CMD = MII_CMD_WRITE /\
  regs (snd (ag71xx_mdio_read (bus_idle 0x1234abcd) 3 2 dev_power_on))
       AG71XX_REG_MII_ADDR = 0x0302.
Proof.
  destruct (read_packs_address_masks_status_restores_cmd
              (bus_idle 0x1234abcd) 3 2 dev_power_on)
    as (_ & Hret & Hcmd & Haddr).
  - vm_compute. discriminate.
  - split; [rewrite Hret; reflexivity |].
    split; [exact Hcmd | rewrite Haddr; reflexivity].
Defined.

End MdioSpec.

(** * Further properties of the MII mode controller *)

Module MiiCtrlMore.
Import MiiCtrl Vocabulary MiiCtrlSpec.

(** ** The result of a call, in full *)

Lemma narrowed_range (port_local : Z) (iface : phy_interface_t) :
  0 <= narrowed port_local (mode_select iface) <= 3.
Proof.
  unfold narrowed. destruct (port_local =? 1), iface; compute;
    intuition congruence.
Qed.

(** A successful [mii_ctrl_set_interface] stores the mode's select code,
    narrowed, beside the speed code it found, clamped for MII and RMII. *)
Lemma set_interface_success (port_local : Z) (hdl : mii_ctrl_handle)
    (iface : phy_interface_t) (io : window) :
  fst (mii_ctrl_set_interface port_local hdl iface io) = 0 ->
  mii_ctrl_set_interface port_local hdl iface io =
  (0, writel (compose (narrowed port_local (mode_select iface))
                      (iface_speed iface (speed_field (port_word hdl io))))
             (port hdl * 4) io).
Proof.
  unfold mii_ctrl_set_interface, iface_speed, compose, narrowed.
  fold (port_word hdl io). fold (speed_field (port_word hdl io)).
  set (speed := speed_field (port_word hdl io)).
  assert (Hclamp :
    (if MII_CTRL_SPEED_100 <? speed then MII_CTRL_SPEED_100 else speed)
    = Z.min speed MII_CTRL_SPEED_100).
  { unfold MII_CTRL_SPEED_100. destruct (Z.ltb_spec 1 speed); lia. }
  rewrite Hclamp.
  destruct iface; destruct (0 <? port_local); destruct (port_local =? 1);
    destruct (has_gbit (ctrl hdl)); simpl; intros H;
    try discriminate H; reflexivity.
Qed.

(** When [mii_ctrl_set_interface] succeeds, by mode. *)
Lemma set_interface_status (port_local : Z) (hdl : mii_ctrl_handle)
    (iface : phy_interface_t) (io : window) :
  fst (mii_ctrl_set_interface port_local hdl iface io) =
  match iface with
  | PHY_INTERFACE_MODE_GMII =>
      if 0 <? port_local then - EINVAL
      else if has_gbit (ctrl hdl) then 0 else - EINVAL
  | PHY_INTERFACE_MODE_MII => if 0 <? port_local then - EINVAL else 0
  | PHY_INTERFACE_MODE_RGMII => if has_gbit (ctrl hdl) then 0 else - EINVAL
  | PHY_INTERFACE_MODE_RMII => 0
  | PHY_INTERFACE_MODE_other _ => - EINVAL
  end.
Proof.
  unfold mii_ctrl_set_interface.
  destruct iface, (0 <? port_local), (has_gbit (ctrl hdl)); reflexivity.
Qed.

(** ** Ports do not interfere *)

Lemma writel_other (val off off' : Z) (io : window) :
  off' <> off -> writel val off io off' = io off'.
Proof. intros Hoff. unfold writel. apply fn_lookup_insert_ne. congruence. Qed.

(** X1.  Neither operation touches a register other than the word of
    the handle's own port: every other offset of the window reads as
    before, whether the call succeeds or fails. *)
Theorem other_ports_untouched :
  (forall (port_local : Z) (hdl : mii_ctrl_handle) (iface : phy_interface_t)
          (io : window) (off : Z),
     off <> port hdl * 4 ->
     snd (mii_ctrl_set_interface port_local hdl iface io) off = io off) /\
  (forall (hdl : mii_ctrl_handle) (link_speed : Z) (io : window) (off : Z),
     off <> port hdl * 4 ->
     snd (mii_ctrl_set_speed hdl link_speed io) off = io off).
Proof.
  split.
  - intros port_local hdl iface io off Hoff.
    destruct (set_interface_shape port_local hdl iface io)
      as [-> | (select & _ & ->)]; simpl; [reflexivity |].
    unfold writel. apply fn_lookup_insert_ne. congruence.
  - intros hdl link_speed io off Hoff.
    destruct (set_speed_shape hdl link_speed io) as [-> | (speed & _ & ->)];
      simpl; [reflexivity |].
    unfold writel. apply fn_lookup_insert_ne. congruence.
Qed.

Lemma other_ports_untouched_witness :
  snd (mii_ctrl_set_interface 0 (hdl_ar7100 0) PHY_INTERFACE_MODE_RMII
         (all_ports 0x20)) 4 = 0x20 /\
  snd (mii_ctrl_set_speed (hdl_ar7100 1) 100 (all_ports 0x02)) 0 = 0x02.
Proof.
  split.
  - apply (proj1 other_ports_untouched 0 (hdl_ar7100 0)
             PHY_INTERFACE_MODE_RMII (all_ports 0x20) 4).
    simpl. lia.
  - apply (proj2 other_ports_untouched (hdl_ar7100 1) 100 (all_ports 0x02) 0).
    simpl. lia.
Defined.

(** ** Reserved bits *)

Lemma compose_only_fields (select speed : Z) :
  0 <= select <= 3 -> 0 <= speed <= 3 -> only_fields (compose select speed).
Proof.
  intros Hs Hv. unfold only_fields.
  destruct (two_bit_cases _ Hs) as [-> | [-> | [-> | ->]]];
    destruct (two_bit_cases _ Hv) as [-> | [-> | [-> | ->]]]; reflexivity.
Qed.

(** X2.  Whatever the port's word held before, reserved bits included,
    the word a successful call of either operation stores has no bit set
    outside the select field and the speed field: the previous reserved
    bits are not carried over. *)
Theorem stored_word_clears_reserved_bits :
  (forall (port_local : Z) (hdl : mii_ctrl_handle) (iface : phy_interface_t)
          (io : window),
     fst (mii_ctrl_set_interface port_local hdl iface io) = 0 ->
     only_fields
       (port_word hdl (snd (mii_ctrl_set_interface port_local hdl iface io)))) /\
  (forall (hdl : mii_ctrl_handle) (link_speed : Z) (io : window),
     fst (mii_ctrl_set_speed hdl link_speed io) = 0 ->
     only_fields (port_word hdl (snd (mii_ctrl_set_speed hdl link_speed io)))).
Proof.
  split.
  - intros port_local hdl iface io.
    destruct (set_interface_shape port_local hdl iface io)
      as [-> | (select & Hsel & ->)]; simpl; [discriminate |].
    intros _. rewrite port_word_writel.
    apply compose_only_fields; [assumption |].
    apply iface_speed_range, speed_field_range.
  - intros hdl link_speed io.
    destruct (set_speed_shape hdl link_speed io) as [-> | (speed & Hsp & ->)];
      simpl; [discriminate |].
    intros _. rewrite port_word_writel.
    apply compose_only_fields; [apply select_field_range | assumption].
Qed.

Lemma stored_word_clears_reserved_bits_witness :
  only_fields
    (port_word (hdl_ar7100 0)
       (snd (mii_ctrl_set_interface 0 (hdl_ar7100 0) PHY_INTERFACE_MODE_RGMII
               (all_ports 0xffffffff)))) /\
  only_fields
    (port_word (hdl_ar7100 0)
       (snd (mii_ctrl_set_speed (hdl_ar7100 0) 100 (all_ports 0xffffffff)))).
Proof.
  split.
  - apply (proj1 stored_word_clears_reserved_bits 0 (hdl_ar7100 0)
             PHY_INTERFACE_MODE_RGMII (all_ports 0xffffffff)).
    reflexivity.
  - apply (proj2 stored_word_clears_reserved_bits (hdl_ar7100 0) 100
             (all_ports 0xffffffff)).
    reflexivity.
Defined.

(** ** Gigabit is never stored over MII or RMII *)

Lemma compose_speed_fits_select (select speed : Z) :
  0 <= select <= 3 -> 0 <= speed <= 3 ->
  (select = MII_CTRL_SELECT_MII \/ select = MII_CTRL_SELECT_RMII ->
   speed <= MII_CTRL_SPEED_100) ->
  speed_fits_select (compose select speed).
Proof.
  intros Hs Hv Hfit. unfold speed_fits_select.
  destruct (compose_fields select speed Hs Hv) as [-> ->]. exact Hfit.
Qed.

Lemma set_interface_speed_fits_select (port_local : Z) (hdl : mii_ctrl_handle)
    (iface : phy_interface_t) (io : window) :
  fst (mii_ctrl_set_interface port_local hdl iface io) = 0 ->
  speed_fits_select
    (port_word hdl (snd (mii_ctrl_set_interface port_local hdl iface io))).
Proof.
  intros Hok. rewrite (set_interface_success _ _ _ _ Hok). cbn [snd].
  rewrite port_word_writel.
  pose proof (speed_field_range (port_word hdl io)) as Hsp.
  apply compose_speed_fits_select.
  - apply narrowed_range.
  - now apply iface_speed_range.
  - set (speed := speed_field (port_word hdl io)) in *. clearbody speed.
    unfold narrowed, iface_speed, MII_CTRL_SPEED_100.
    destruct iface, (port_local =? 1); cbn; intros [H | H];
      try discriminate H; lia.
Qed.

Lemma set_speed_speed_fits_select (hdl : mii_ctrl_handle) (link_speed : Z)
    (io : window) :
  fst (mii_ctrl_set_speed hdl link_speed io) = 0 ->
  speed_fits_select (port_word hdl (snd (mii_ctrl_set_speed hdl link_speed io))).
Proof.
  pose proof (select_field_range (port_word hdl io)) as Hsel.
  destruct (Z.eq_dec link_speed 10) as [-> | H10];
    [| destruct (Z.eq_dec link_speed 100) as [-> | H100];
       [| destruct (Z.eq_dec link_speed 1000) as [-> | H1000]]].
  - rewrite set_speed_10. simpl. intros _. rewrite port_word_writel.
    apply compose_speed_fits_select; [assumption | compute; intuition congruence |].
    intros _. reflexivity.
  - rewrite set_speed_100. simpl. intros _. rewrite port_word_writel.
    apply compose_speed_fits_select; [assumption | compute; intuition congruence |].
    intros _. reflexivity.
  - rewrite set_speed_1000.
    destruct (select_field (port_word hdl io) =? MII_CTRL_SELECT_MII) eqn:Hmii;
      [simpl; discriminate |].
    destruct (select_field (port_word hdl io) =? MII_CTRL_SELECT_RMII) eqn:Hrmii;
      [simpl; discriminate |].
    simpl. intros _. rewrite port_word_writel.
    apply compose_speed_fits_select; [assumption | compute; intuition congruence |].
    apply Z.eqb_neq in Hmii, Hrmii. intros [H | H]; contradiction.
  - rewrite set_speed_other by assumption. simpl. discriminate.
Qed.

(** One call keeps the property on every word of the window. *)
Lemma run_call_speed_fits_select (c : mii_call) (io : window) :
  (forall off, speed_fits_select (io off)) ->
  forall off, speed_fits_select (snd (run_call c io) off).
Proof.
  intros Hinv off.
  destruct c as [port_local hdl iface | hdl link_speed]; cbn [run_call].
  - pose proof (set_interface_speed_fits_select port_local hdl iface io) as Hnew.
    destruct (set_interface_shape port_local hdl iface io)
      as [E | (select & _ & E)]; rewrite E in *; cbn [fst snd] in *;
      [apply Hinv |].
    destruct (Z.eq_dec off (port hdl * 4)) as [-> | Hoff].
    + now apply Hnew.
    + rewrite writel_other by assumption. apply Hinv.
  - pose proof (set_speed_speed_fits_select hdl link_speed io) as Hnew.
    destruct (set_speed_shape hdl link_speed io) as [E | (speed & _ & E)];
      rewrite E in *; cbn [fst snd] in *; [apply Hinv |].
    destruct (Z.eq_dec off (port hdl * 4)) as [-> | Hoff].
    + now apply Hnew.
    + rewrite writel_other by assumption. apply Hinv.
Qed.

(** X3.  Over any sequence of calls of the two operations, on any
    handles, with any arguments and whatever the unassigned local
    holds, successful or not: if no word of the window pairs an MII or
    RMII select with a speed code above 1 (100 Mb/s) at the start, none
    does at the end. *)
Theorem calls_keep_speed_within_select (cs : list mii_call) :
  forall io : window,
    (forall off, speed_fits_select (io off)) ->
    forall off, speed_fits_select (run_calls cs io off).
Proof.
  induction cs as [| c cs IH]; intros io Hinv; simpl; [exact Hinv |].
  apply IH. now apply run_call_speed_fits_select.
Qed.

Lemma calls_keep_speed_within_select_witness :
  speed_fits_select
    (run_calls [Set_interface 0 (hdl_ar7100 0) PHY_INTERFACE_MODE_RGMII;
                Set_speed (hdl_ar7100 0) 1000;
                Set_interface 0 (hdl_ar7100 0) PHY_INTERFACE_MODE_RMII;
                Set_speed (hdl_ar7100 0) 1000]
       (all_ports 0) 0).
Proof.
  apply calls_keep_speed_within_select.
  intros off. unfold all_ports. intros _. vm_compute. discriminate.
Defined.

(** ** Capability and mode *)

(** X4.  On a controller without gigabit support GMII and RGMII are
    refused with [-EINVAL] and nothing is written, on any port and
    whatever the unassigned local holds. *)
Theorem gigabit_modes_need_has_gbit (port_local : Z) (hdl : mii_ctrl_handle)
    (io : window) :
  has_gbit (ctrl hdl) = false ->
  mii_ctrl_set_interface port_local hdl PHY_INTERFACE_MODE_GMII io
    = (- EINVAL, io) /\
  mii_ctrl_set_interface port_local hdl PHY_INTERFACE_MODE_RGMII io
    = (- EINVAL, io).
Proof.
  intros Hcap. unfold mii_ctrl_set_interface. rewrite Hcap.
  destruct (0 <? port_local), (port_local =? 1); split; reflexivity.
Qed.

Lemma gigabit_modes_need_has_gbit_witness :
  mii_ctrl_set_interface 0 (hdl_ar7130 0) PHY_INTERFACE_MODE_GMII (all_ports 0)
    = (- EINVAL, all_ports 0) /\
  mii_ctrl_set_interface 0 (hdl_ar7130 0) PHY_INTERFACE_MODE_RGMII (all_ports 0)
    = (- EINVAL, all_ports 0).
Proof.
  apply (gigabit_modes_need_has_gbit 0 (hdl_ar7130 0) (all_ports 0)).
  reflexivity.
Defined.

(** X5.  RMII is accepted on every handle, with or without gigabit
    support and whatever the unassigned local holds: the call returns
    0, stores select 3 (or its low bit 1 when the local is 1) and lowers
    a stored speed code above 1 to 1 instead of failing. *)
Theorem rmii_is_always_accepted (port_local : Z) (hdl : mii_ctrl_handle)
    (io : window) :
  fst (mii_ctrl_set_interface port_local hdl PHY_INTERFACE_MODE_RMII io) = 0 /\
  select_field
    (port_word hdl
       (snd (mii_ctrl_set_interface port_local hdl PHY_INTERFACE_MODE_RMII io)))
  = (if port_local =? 1 then MII_CTRL_SELECT_MII else MII_CTRL_SELECT_RMII) /\
  speed_field
    (port_word hdl
       (snd (mii_ctrl_set_interface port_local hdl PHY_INTERFACE_MODE_RMII io)))
  = Z.min (speed_field (port_word hdl io)) MII_CTRL_SPEED_100.
Proof.
  assert (Hok :
    fst (mii_ctrl_set_interface port_local hdl PHY_INTERFACE_MODE_RMII io) = 0)
    by now rewrite set_interface_status.
  split; [exact Hok |].
  rewrite (set_interface_success _ _ _ _ Hok). cbn [snd].
  rewrite port_word_writel.
  pose proof (speed_field_range (port_word hdl io)) as Hsp.
  destruct (compose_fields
              (narrowed port_local (mode_select PHY_INTERFACE_MODE_RMII))
              (iface_speed PHY_INTERFACE_MODE_RMII (speed_field (port_word hdl io))))
    as [-> ->].
  - apply narrowed_range.
  - now apply iface_speed_range.
  - split; [| reflexivity].
    unfold narrowed. destruct (port_local =? 1); reflexivity.
Qed.

(** X6.  The select code a successful [mii_ctrl_set_interface] stores
    is the code of the requested mode, reduced to its low bit exactly
    when the local [port] equals 1; in that case RGMII is stored as 0
    and RMII as 1, the codes of GMII and MII. *)
Theorem stored_select_is_narrowed_mode_code (port_local : Z)
    (hdl : mii_ctrl_handle) (iface : phy_interface_t) (io : window) :
  fst (mii_ctrl_set_interface port_local hdl iface io) = 0 ->
  select_field
    (port_word hdl (snd (mii_ctrl_set_interface port_local hdl iface io)))
  = (if port_local =? 1 then Z.land (mode_select iface) 1
     else mode_select iface).
Proof.
  intros Hok. rewrite (set_interface_success _ _ _ _ Hok). cbn [snd].
  rewrite port_word_writel.
  pose proof (speed_field_range (port_word hdl io)) as Hsp.
  destruct (compose_fields (narrowed port_local (mode_select iface))
              (iface_speed iface (speed_field (port_word hdl io)))) as [-> _];
    [apply narrowed_range | now apply iface_speed_range | reflexivity].
Qed.

Lemma stored_select_is_narrowed_mode_code_witness :
  select_field
    (port_word (hdl_ar7100 1)
       (snd (mii_ctrl_set_interface 1 (hdl_ar7100 1) PHY_INTERFACE_MODE_RGMII
               (all_ports 0)))) = 0.
Proof.
  apply (stored_select_is_narrowed_mode_code 1 (hdl_ar7100 1)
           PHY_INTERFACE_MODE_RGMII (all_ports 0)).
  reflexivity.
Defined.

(** ** Calls in sequence *)

(** Both fields of the word a successful [mii_ctrl_set_interface]
    leaves behind. *)
Lemma set_interface_fields (port_local : Z) (hdl : mii_ctrl_handle)
    (iface : phy_interface_t) (io : window) :
  fst (mii_ctrl_set_interface port_local hdl iface io) = 0 ->
  select_field
    (port_word hdl (snd (mii_ctrl_set_interface port_local hdl iface io)))
  = narrowed port_local (mode_select iface) /\
  speed_field
    (port_word hdl (snd (mii_ctrl_set_interface port_local hdl iface io)))
  = iface_speed iface (speed_field (port_word hdl io)).
Proof.
  intros Hok. rewrite (set_interface_success _ _ _ _ Hok). cbn [snd].
  rewrite port_word_writel.
  pose proof (speed_field_range (port_word hdl io)) as Hsp.
  apply compose_fields; [apply narrowed_range | now apply iface_speed_range].
Qed.

(** [mii_ctrl_set_speed] looks at the window only through the select
    field of the port's word. *)
Lemma set_speed_by_select (hdl : mii_ctrl_handle) (link_speed : Z)
    (io io' : window) :
  select_field (port_word hdl io) = select_field (port_word hdl io') ->
  fst (mii_ctrl_set_speed hdl link_speed io)
  = fst (mii_ctrl_set_speed hdl link_speed io') /\
  (fst (mii_ctrl_set_speed hdl link_speed io) = 0 ->
   port_word hdl (snd (mii_ctrl_set_speed hdl link_speed io))
   = port_word hdl (snd (mii_ctrl_set_speed hdl link_speed io'))).
Proof.
  intros Hsel.
  destruct (Z.eq_dec link_speed 10) as [-> | H10];
    [| destruct (Z.eq_dec link_speed 100) as [-> | H100];
       [| destruct (Z.eq_dec link_speed 1000) as [-> | H1000]]].
  - rewrite !set_speed_10. cbn [fst snd]. rewrite !port_word_writel, Hsel.
    now split.
  - rewrite !set_speed_100. cbn [fst snd]. rewrite !port_word_writel, Hsel.
    now split.
  - rewrite !set_speed_1000, Hsel. destruct (_ || _); cbn [fst snd].
    + split; [reflexivity | discriminate].
    + rewrite !port_word_writel. now split.
  - rewrite !set_speed_other by assumption. cbn [fst snd].
    split; [reflexivity | discriminate].
Qed.

(** X7.  After a successful [mii_ctrl_set_interface] for MII or RMII, a
    request for 1000 Mb/s on the same handle is refused with [-EINVAL]
    and leaves the window as the mode change left it; this holds with
    and without gigabit support and whatever the unassigned local
    holds. *)
Theorem gigabit_refused_after_mii_or_rmii (port_local : Z)
    (hdl : mii_ctrl_handle) (iface : phy_interface_t) (io : window) :
  iface = PHY_INTERFACE_MODE_MII \/ iface = PHY_INTERFACE_MODE_RMII ->
  fst (mii_ctrl_set_interface port_local hdl iface io) = 0 ->
  mii_ctrl_set_speed hdl 1000
    (snd (mii_ctrl_set_interface port_local hdl iface io))
  = (- EINVAL, snd (mii_ctrl_set_interface port_local hdl iface io)).
Proof.
  intros Hmode Hok.
  destruct (set_interface_fields _ _ _ _ Hok) as [Hsel _].
  rewrite set_speed_1000, Hsel. unfold narrowed.
  destruct Hmode as [-> | ->]; destruct (port_local =? 1); reflexivity.
Qed.

Lemma gigabit_refused_after_mii_or_rmii_witness :
  fst (mii_ctrl_set_speed (hdl_ar7100 0) 1000
         (snd (mii_ctrl_set_interface 0 (hdl_ar7100 0) PHY_INTERFACE_MODE_RMII
                 (all_ports 0x20)))) = - EINVAL.
Proof.
  rewrite (gigabit_refused_after_mii_or_rmii 0 (hdl_ar7100 0)
             PHY_INTERFACE_MODE_RMII (all_ports 0x20)).
  - reflexivity.
  - right. reflexivity.
  - reflexivity.
Defined.

(** X8.  On a controller with gigabit support, selecting RGMII and then
    requesting 1000 Mb/s both succeed; the port's word ends with speed
    code 2 and with select 2, or 0 when the unassigned local is 1. *)
Theorem rgmii_then_gigabit_succeeds (port_local : Z) (hdl : mii_ctrl_handle)
    (io : window) :
  has_gbit (ctrl hdl) = true ->
  fst (mii_ctrl_set_interface port_local hdl PHY_INTERFACE_MODE_RGMII io) = 0 /\
  fst (mii_ctrl_set_speed hdl 1000
         (snd (mii_ctrl_set_interface port_local hdl
                 PHY_INTERFACE_MODE_RGMII io))) = 0 /\
  port_word hdl
    (snd (mii_ctrl_set_speed hdl 1000
            (snd (mii_ctrl_set_interface port_local hdl
                    PHY_INTERFACE_MODE_RGMII io))))
  = compose (if port_local =? 1 then MII_CTRL_SELECT_GMII
             else MII_CTRL_SELECT_RGMII) MII_CTRL_SPEED_1000.
Proof.
  intros Hcap.
  assert (Hok :
    fst (mii_ctrl_set_interface port_local hdl PHY_INTERFACE_MODE_RGMII io) = 0)
    by now rewrite set_interface_status, Hcap.
  split; [exact Hok |].
  destruct (set_interface_fields _ _ _ _ Hok) as [Hsel _].
  rewrite set_speed_1000, Hsel. unfold narrowed.
  destruct (port_local =? 1); cbn [mode_select].
  - change ((Z.land MII_CTRL_SELECT_RGMII MII_CTRL_SELECT_PORT1_MASK =?
             MII_CTRL_SELECT_MII)
            || (Z.land MII_CTRL_SELECT_RGMII MII_CTRL_SELECT_PORT1_MASK =?
                MII_CTRL_SELECT_RMII)) with false.
    cbn [fst snd]. now rewrite port_word_writel.
  - change ((MII_CTRL_SELECT_RGMII =? MII_CTRL_SELECT_MII)
            || (MII_CTRL_SELECT_RGMII =? MII_CTRL_SELECT_RMII)) with false.
    cbn [fst snd]. now rewrite port_word_writel.
Qed.

Lemma rgmii_then_gigabit_succeeds_witness :
  port_word (hdl_ar7100 0)
    (snd (mii_ctrl_set_speed (hdl_ar7100 0) 1000
            (snd (mii_ctrl_set_interface 0 (hdl_ar7100 0)
                    PHY_INTERFACE_MODE_RGMII (all_ports 0x13))))) = 0x22.
Proof.
  destruct (rgmii_then_gigabit_succeeds 0 (hdl_ar7100 0) (all_ports 0x13))
    as (_ & _ & Hword).
  - reflexivity.
  - rewrite Hword. reflexivity.
Defined.

(** X9.  Of two speed requests in a row the second alone decides: after
    a successful [mii_ctrl_set_speed], a further request has the status
    it would have had on the original window and, when it succeeds,
    leaves the same port word. *)
Theorem last_speed_request_wins (hdl : mii_ctrl_handle) (first second : Z)
    (io : window) :
  fst (mii_ctrl_set_speed hdl first io) = 0 ->
  fst (mii_ctrl_set_speed hdl second (snd (mii_ctrl_set_speed hdl first io)))
  = fst (mii_ctrl_set_speed hdl second io) /\
  (fst (mii_ctrl_set_speed hdl second io) = 0 ->
   port_word hdl
     (snd (mii_ctrl_set_speed hdl second (snd (mii_ctrl_set_speed hdl first io))))
   = port_word hdl (snd (mii_ctrl_set_speed hdl second io))).
Proof.
  intros Hok.
  assert (Hsel :
    select_field (port_word hdl (snd (mii_ctrl_set_speed hdl first io)))
    = select_field (port_word hdl io)).
  { destruct (set_speed_shape hdl first io) as [E | (speed & Hsp & E)];
      rewrite E in *; cbn [fst snd] in *; [discriminate |].
    rewrite port_word_writel.
    now apply compose_fields; [apply select_field_range |]. }
  destruct (set_speed_by_select hdl second _ _ Hsel) as [Hst Hword].
  split; [exact Hst |]. intros Hok2. apply Hword. now rewrite Hst.
Qed.

Lemma last_speed_request_wins_witness :
  port_word (hdl_ar7100 0)
    (snd (mii_ctrl_set_speed (hdl_ar7100 0) 100
            (snd (mii_ctrl_set_speed (hdl_ar7100 0) 1000 (all_ports 2)))))
  = port_word (hdl_ar7100 0)
      (snd (mii_ctrl_set_speed (hdl_ar7100 0) 100 (all_ports 2))).
Proof.
  apply (last_speed_request_wins (hdl_ar7100 0) 1000 100 (all_ports 2));
    reflexivity.
Defined.



End MiiCtrlMore.

(** * Further properties of the MDIO bus controller *)

Module MdioMore.
Import Mdio Vocabulary MdioSpec.

(** ** Waiting *)

(** The two ways [ag71xx_mdio_wait_busy] ends, with what IND showed. *)
Lemma wait_busy_outcome (bus : mdio_bus) (dev : mdio_dev) :
  (exists k, (k < AG71XX_MDIO_RETRY)%nat /\ idle_at bus dev k /\
     ag71xx_mdio_wait_busy bus dev = (0, after_polls (S k) k dev)) \/
  (busy_for bus dev AG71XX_MDIO_RETRY /\
   ag71xx_mdio_wait_busy bus dev
   = (- ETIMEDOUT, after_polls AG71XX_MDIO_RETRY AG71XX_MDIO_RETRY dev)).
Proof.
  unfold ag71xx_mdio_wait_busy, idle_at, busy_for.
  destruct (first_zero_or_none (fun j => ind_at bus (ind_polls dev + j))
              AG71XX_MDIO_RETRY) as [Hnone | (k & Hk & Hz & Hfirst)].
  - right. split; [exact Hnone |]. now apply wait_busy_loop_timeout.
  - left. exists k. repeat split; try assumption.
    now apply wait_busy_loop_idle.
Qed.

(** X11.  [ag71xx_mdio_wait_busy] writes no register and returns only 0
    or [-ETIMEDOUT]; it reads IND at least once and at most 1000 times,
    and delays for at most 5000 microseconds in total. *)
Theorem wait_busy_is_bounded_and_read_only (bus : mdio_bus) (dev : mdio_dev) :
  regs (snd (ag71xx_mdio_wait_busy bus dev)) = regs dev /\
  wlog (snd (ag71xx_mdio_wait_busy bus dev)) = wlog dev /\
  (fst (ag71xx_mdio_wait_busy bus dev) = 0 \/
   fst (ag71xx_mdio_wait_busy bus dev) = - ETIMEDOUT) /\
  (ind_polls dev < ind_polls (snd (ag71xx_mdio_wait_busy bus dev))
   <= ind_polls dev + 1000)%nat /\
  delayed dev <= delayed (snd (ag71xx_mdio_wait_busy bus dev))
  <= delayed dev + 5000.
Proof.
  destruct (wait_busy_outcome bus dev) as [(k & Hk & _ & ->) | (_ & ->)];
    unfold AG71XX_MDIO_RETRY in *;
    cbn [fst snd after_polls regs wlog ind_polls delayed];
    unfold AG71XX_MDIO_DELAY; repeat split; auto; lia.
Qed.

(** ** Register write *)

Lemma write_unfold (bus : mdio_bus) (addr reg val : Z) (dev : mdio_dev) :
  ag71xx_mdio_write bus addr reg val dev =
  ag71xx_mdio_wait_busy bus
    (written AG71XX_REG_MII_CTRL (u32 val)
       (written AG71XX_REG_MII_ADDR (mii_addr addr reg) dev)).
Proof.
  unfold ag71xx_mdio_write, mbind, io_bind.
  rewrite !wr_written by discriminate.
  change (Z.lor (Z.shiftl (Z.land addr 255) MII_ADDR_SHIFT) (Z.land reg 255))
    with (mii_addr addr reg).
  now rewrite u32_mii_addr.
Qed.



(** ** Register read: the two timeouts *)

(** X14.  When IND reads nonzero at each of the first 1000 polls,
    [ag71xx_mdio_read] returns [-ETIMEDOUT] without having written any
    register: the device differs only by the 1000 polls and the delays
    between them. *)
Theorem read_busy_bus_writes_nothing (bus : mdio_bus) (addr reg : Z)
    (dev : mdio_dev) :
  busy_for bus dev AG71XX_MDIO_RETRY ->
  ag71xx_mdio_read bus addr reg dev
  = (- ETIMEDOUT, after_polls AG71XX_MDIO_RETRY AG71XX_MDIO_RETRY dev).
Proof.
  intros Hbusy. rewrite read_unfold.
  unfold ag71xx_mdio_wait_busy at 1.
  now rewrite (wait_busy_loop_timeout bus _ dev Hbusy).
Qed.

Lemma read_busy_bus_writes_nothing_witness :
  ag71xx_mdio_read bus_busy 3 2 dev_power_on
  = (- ETIMEDOUT, after_polls AG71XX_MDIO_RETRY AG71XX_MDIO_RETRY dev_power_on).
Proof.
  apply (read_busy_bus_writes_nothing bus_busy 3 2 dev_power_on).
  intros j _. discriminate.
Defined.

(** X15.  When the bus is idle for the first wait but IND then reads
    nonzero for 1000 polls, [ag71xx_mdio_read] returns [-ETIMEDOUT] and
    the restore step is not reached: the writes made are CMD :=
    write-mode, ADDR := packed pair, CMD := read-mode, and CMD is left
    in read-mode. *)
Theorem read_timeout_leaves_cmd_in_read_mode (bus : mdio_bus) (addr reg : Z)
    (dev : mdio_dev) (k : nat) :
  (k < AG71XX_MDIO_RETRY)%nat ->
  idle_at bus dev k ->
  busy_for bus (after_polls (S k) k dev) AG71XX_MDIO_RETRY ->
  fst (ag71xx_mdio_read bus addr reg dev) = - ETIMEDOUT /\
  regs (snd (ag71xx_mdio_read bus addr reg dev)) AG71XX_REG_MII_CMD
  = MII_CMD_READ /\
  wlog (snd (ag71xx_mdio_read bus addr reg dev))
  = wlog dev ++ [(AG71XX_REG_MII_CMD, MII_CMD_WRITE);
                 (AG71XX_REG_MII_ADDR, mii_addr addr reg);
                 (AG71XX_REG_MII_CMD, MII_CMD_READ)].
Proof.
  intros Hk [Hz Hfirst] Hbusy.
  assert (E : ag71xx_mdio_read bus addr reg dev
    = (- ETIMEDOUT,
       after_polls AG71XX_MDIO_RETRY AG71XX_MDIO_RETRY
         (written AG71XX_REG_MII_CMD MII_CMD_READ
            (written AG71XX_REG_MII_ADDR (mii_addr addr reg)
               (written AG71XX_REG_MII_CMD MII_CMD_WRITE
                  (after_polls (S k) k dev)))))).
  { rewrite read_unfold. unfold ag71xx_mdio_wait_busy.
    rewrite (wait_busy_loop_idle bus _ k dev Hk Hz Hfirst).
    change (negb (0 =? 0)) with false. cbv iota beta zeta.
    now rewrite wait_busy_loop_timeout by exact Hbusy. }
  rewrite E. cbn [fst snd after_polls written regs wlog].
  repeat split. now rewrite <- !app_assoc.
Qed.

Lemma read_timeout_leaves_cmd_in_read_mode_witness :
  fst (ag71xx_mdio_read bus_idle_once 3 2 dev_power_on) = - ETIMEDOUT /\
  regs (snd (ag71xx_mdio_read bus_idle_once 3 2 dev_power_on))
       AG71XX_REG_MII_CMD = MII_CMD_READ.
Proof.
  destruct (read_timeout_leaves_cmd_in_read_mode bus_idle_once 3 2
              dev_power_on 0) as (Hret & Hcmd & _).
  - unfold AG71XX_MDIO_RETRY. lia.
  - split; [reflexivity | intros j Hj; lia].
  - intros j _. discriminate.
  - split; [exact Hret | exact Hcmd].
Defined.

(** X16.  The result of [ag71xx_mdio_read] is either [-ETIMEDOUT] or a
    value between 0 and 0xffff, so the sign of the result tells an
    error from data. *)
Theorem read_result_is_timeout_or_16_bits (bus : mdio_bus) (addr reg : Z)
    (dev : mdio_dev) :
  fst (ag71xx_mdio_read bus addr reg dev) = - ETIMEDOUT \/
  0 <= fst (ag71xx_mdio_read bus addr reg dev) <= 0xffff.
Proof.
  rewrite read_unfold.
  destruct (wait_busy_outcome bus dev) as [(k & _ & _ & ->) | (_ & ->)];
    [change (negb (0 =? 0)) with false
    | change (negb (- ETIMEDOUT =? 0)) with true];
    cbv iota beta zeta; [| now left].
  match goal with
  | |- context [ag71xx_mdio_wait_busy bus ?d] =>
      destruct (wait_busy_outcome bus d) as [(k' & _ & _ & ->) | (_ & ->)]
  end;
    [change (negb (0 =? 0)) with false
    | change (negb (- ETIMEDOUT =? 0)) with true];
    cbv iota beta; [| now left].
  right. cbn [fst].
  match goal with |- 0 <= Z.land ?s _ <= _ => generalize s end. intros s.
  change 0xffff with (Z.ones 16). rewrite Z.land_ones by lia.
  pose proof (Z.mod_pos_bound s (2 ^ 16) eq_refl) as H.
  change (2 ^ 16) with 65536 in *. change (Z.ones 16) with 65535. lia.
Qed.

(** X17.  One call of [ag71xx_mdio_read] reads IND at most 2000 times
    and delays for at most 10000 microseconds, whatever the hardware
    answers. *)
Theorem read_is_bounded (bus : mdio_bus) (addr reg : Z) (dev : mdio_dev) :
  (ind_polls dev < ind_polls (snd (ag71xx_mdio_read bus addr reg dev))
   <= ind_polls dev + 2000)%nat /\
  delayed dev <= delayed (snd (ag71xx_mdio_read bus addr reg dev))
  <= delayed dev + 10000.
Proof.
  rewrite read_unfold.
  destruct (wait_busy_outcome bus dev) as [(k & Hk & _ & ->) | (_ & ->)];
    [change (negb (0 =? 0)) with false
    | change (negb (- ETIMEDOUT =? 0)) with true];
    cbv iota beta zeta.
  - match goal with
    | |- context [ag71xx_mdio_wait_busy bus ?d] =>
        destruct (wait_busy_outcome bus d) as [(k' & Hk' & _ & ->) | (_ & ->)]
    end;
      [change (negb (0 =? 0)) with false
      | change (negb (- ETIMEDOUT =? 0)) with true];
      cbv iota beta; unfold AG71XX_MDIO_RETRY in *;
      cbn [fst snd after_polls written regs wlog ind_polls delayed];
      unfold AG71XX_MDIO_DELAY; lia.
  - unfold AG71XX_MDIO_RETRY in *.
    cbn [fst snd after_polls written regs wlog ind_polls delayed].
    unfold AG71XX_MDIO_DELAY. lia.
Qed.

(** ** The address word *)

Lemma land_255_mod (x : Z) : Z.land x 0xff = x mod 256.
Proof. change 0xff with (Z.ones 8). now rewrite Z.land_ones by lia. Qed.

(** The ADDR word carries the low eight bits of the device address in
    bits 15:8 and the low eight bits of the register address in bits
    7:0; higher bits of either argument are dropped. *)
Lemma mii_addr_fields (addr reg : Z) :
  Z.shiftr (mii_addr addr reg) 8 = addr mod 256 /\
  Z.land (mii_addr addr reg) 0xff = reg mod 256 /\
  mii_addr addr reg = mii_addr (addr mod 256) (reg mod 256).
Proof.
  assert (Hdecode : forall a r,
    Z.shiftr (mii_addr a r) 8 = a mod 256 /\
    Z.land (mii_addr a r) 0xff = r mod 256).
  { intros a r. unfold mii_addr. rewrite !land_255_mod.
    pose proof (Z.mod_pos_bound a 256 eq_refl) as Ha.
    pose proof (Z.mod_pos_bound r 256 eq_refl) as Hr.
    split.
    - rewrite Z.shiftr_lor, Z.shiftr_shiftl_l by lia.
      rewrite (Z.shiftr_div_pow2 (r mod 256)) by lia.
      change (2 ^ 8) with 256. rewrite (Z.div_small (r mod 256)) by lia.
      change (8 - 8) with 0. rewrite Z.shiftl_0_r. apply Z.lor_0_r.
    - rewrite Z.shiftl_mul_pow2 by lia. change (2 ^ 8) with 256.
      pose proof (Z.add_lor_land (a mod 256 * 256) (r mod 256)) as Hadd.
      assert (Hdisj : Z.land (a mod 256 * 256) (r mod 256) = 0).
      { apply Z.bits_inj'. intros n Hn.
        rewrite Z.land_spec, Z.bits_0.
        destruct (Z.lt_ge_cases n 8) as [Hlow | Hhigh].
        - change 256 with (2 ^ 8). rewrite Z.mul_pow2_bits_low by lia.
          reflexivity.
        - rewrite (Z.bits_above_log2 (r mod 256)); [apply andb_false_r | lia |].
          destruct (Z.eq_dec (r mod 256) 0) as [-> | Hnz]; [simpl; lia |].
          apply Z.log2_lt_pow2; [lia |].
          apply Z.lt_le_trans with (2 ^ 8); [change (2 ^ 8) with 256; lia |].
          apply Z.pow_le_mono_r; lia. }
      rewrite Hdisj, Z.add_0_r in Hadd. rewrite Hadd.
      rewrite Z.add_comm, Z.mod_add by lia. apply Z.mod_mod. lia. }
  destruct (Hdecode addr reg) as [Ha Hr]. repeat split; try assumption.
  unfold mii_addr. rewrite !land_255_mod. now rewrite !Z.mod_mod by lia.
Qed.

(** ** Register access *)



(** X13.  After [ag71xx_mdio_write], successful or timed out, the ADDR
    register holds the device address modulo 256 in bits 15:8 and the
    register address modulo 256 in bits 7:0: both can be read back from
    it, and bits of the arguments above the eighth never reach the
    hardware. *)
Theorem write_leaves_decodable_address (bus : mdio_bus) (addr reg val : Z)
    (dev : mdio_dev) :
  Z.shiftr (regs (snd (ag71xx_mdio_write bus addr reg val dev))
              AG71XX_REG_MII_ADDR) 8 = addr mod 256 /\
  Z.land (regs (snd (ag71xx_mdio_write bus addr reg val dev))
            AG71XX_REG_MII_ADDR) 0xff = reg mod 256 /\
  regs (snd (ag71xx_mdio_write bus addr reg val dev)) AG71XX_REG_MII_ADDR
  = regs (snd (ag71xx_mdio_write bus (addr mod 256) (reg mod 256) val dev))
         AG71XX_REG_MII_ADDR.
Proof.
  assert (Haddr : forall a r,
    regs (snd (ag71xx_mdio_write bus a r val dev)) AG71XX_REG_MII_ADDR
    = mii_addr a r).
  { intros a r. rewrite write_unfold.
    match goal with
    | |- context [ag71xx_mdio_wait_busy bus ?d] =>
        destruct (wait_busy_outcome bus d) as [(k & _ & _ & ->) | (_ & ->)]
    end; reflexivity. }
  rewrite !Haddr. apply mii_addr_fields.
Qed.

(** ** Reset with a usable divider *)

Lemma lor_reset_bit (d : Z) :
  0 <= d < 2 ^ 31 -> Z.lor d MII_CFG_RESET = d + 2 ^ 31.
Proof.
  intros Hd. change MII_CFG_RESET with (2 ^ 31).
  pose proof (Z.add_lor_land d (2 ^ 31)) as Hadd.
  assert (Hdisj : Z.land d (2 ^ 31) = 0).
  { apply Z.bits_inj'. intros n Hn. rewrite Z.land_spec, Z.bits_0.
    destruct (Z.eq_dec n 31) as [-> | Hne].
    - rewrite (proj2 (Z.testbit_false d 31 ltac:(lia))); [reflexivity |].
      now rewrite Z.div_small.
    - rewrite Z.pow2_bits_false by lia. apply andb_false_r. }
  lia.
Qed.

(** X18.  When the divider selection yields a divider below 2^31,
    [ag71xx_mdio_reset] returns 0 after exactly two writes, CFG :=
    divider with bit 31 (reset) set and then CFG := divider, with 100
    microseconds after each and no read of IND; CFG is left holding the
    divider with the reset bit clear. *)
Theorem reset_pulses_reset_and_keeps_divider (bus : mdio_bus)
    (am : ag71xx_mdio) (dev : mdio_dev) (d : Z) :
  ag71xx_mdio_get_divider am = Done d ->
  0 <= d < 2 ^ 31 ->
  exists dev',
    ag71xx_mdio_reset bus am dev = Done (0, dev') /\
    wlog dev' = wlog dev ++ [(AG71XX_REG_MII_CFG, d + 2 ^ 31);
                             (AG71XX_REG_MII_CFG, d)] /\
    regs dev' AG71XX_REG_MII_CFG = d /\
    Z.testbit (regs dev' AG71XX_REG_MII_CFG) 31 = false /\
    ind_polls dev' = ind_polls dev /\
    delayed dev' = delayed dev + 200.
Proof.
  intros Hdiv Hd. unfold ag71xx_mdio_reset. rewrite Hdiv.
  unfold mbind, io_bind, mret, io_ret.
  rewrite wr_written by discriminate. unfold udelay at 1.
  rewrite wr_written by discriminate. unfold udelay.
  rewrite lor_reset_bit by assumption.
  assert (Hu1 : u32 (d + 2 ^ 31) = d + 2 ^ 31).
  { unfold u32. apply Z.mod_small.
    change (2 ^ 31) with 2147483648 in *. change (2 ^ 32) with 4294967296. lia. }
  assert (Hu2 : u32 d = d).
  { unfold u32. apply Z.mod_small.
    change (2 ^ 31) with 2147483648 in *. change (2 ^ 32) with 4294967296. lia. }
  rewrite Hu1, Hu2.
  eexists. split; [reflexivity |].
  cbn [written regs wlog ind_polls delayed]. repeat split.
  - now rewrite <- app_assoc.
  - apply (proj2 (Z.testbit_false d 31 ltac:(lia))). now rewrite Z.div_small.
  - lia.
Qed.

Lemma reset_pulses_reset_and_keeps_divider_witness :
  exists dev',
    ag71xx_mdio_reset (bus_idle 0) am_40mhz dev_power_on = Done (0, dev') /\
    regs dev' AG71XX_REG_MII_CFG = 20.
Proof.
  destruct (reset_pulses_reset_and_keeps_divider (bus_idle 0) am_40mhz
              dev_power_on 20) as (dev' & Hret & _ & Hcfg & _).
  - reflexivity.
  - split; [lia | reflexivity].
  - exists dev'. split; assumption.
Defined.

(** ** What a returned divider is *)

(** A scan that ends with a divider, in a table it cannot leave without
    faulting, has stopped at the first acceptable entry. *)
Lemma divider_scan_done (am : ag71xx_mdio) (d : Z) :
  forall (todo i : nat),
    (i + todo = S (length (div_table (hw am))))%nat ->
    divider_scan am (ref_clk am) todo i = Done d ->
    exists k, (i <= k)%nat /\
      div_table (hw am) !! k = Some d /\ d <> 0 /\ slow_enough am d /\
      forall j e, (i <= j < k)%nat -> div_table (hw am) !! j = Some e ->
                  ~ slow_enough am e.
Proof.
  induction todo as [| todo IH]; intros i Hlen Hscan; simpl in Hscan.
  - rewrite div_table_at_outside in Hscan by lia. discriminate.
  - unfold div_table_at in Hscan.
    destruct (div_table (hw am) !! i) as [e |] eqn:He; [| discriminate].
    destruct (Z.eqb_spec e 0) as [| He0]; [discriminate |].
    destruct (Z.leb_spec (ref_clk am / e) (mdio_rate am)) as [Hok | Hfast].
    + inversion Hscan; subst e. exists i. repeat split; auto. intros j e' Hj. lia.
    + destruct (IH (S i) ltac:(lia) Hscan) as (k & Hk & Hd & Hd0 & Hok & Hbefore).
      exists k. repeat split; auto; [lia |].
      intros j e' Hj He'. destruct (Nat.eq_dec j i) as [-> | Hne].
      * rewrite He in He'. inversion He'; subst e'. unfold slow_enough. lia.
      * apply (Hbefore j); [lia | assumption].
Qed.

(** X19.  With a nonzero reference clock and a table as long as its
    recorded size, a divider that [ag71xx_mdio_get_divider] returns is
    an entry of the table, brings the clock down to the target rate or
    below, and is the first entry that does. *)
Theorem returned_divider_is_first_acceptable (am : ag71xx_mdio) (d : Z) :
  ref_clk am <> 0 ->
  div_table_size (hw am) = length (div_table (hw am)) ->
  ag71xx_mdio_get_divider am = Done d ->
  exists k,
    div_table (hw am) !! k = Some d /\
    ref_clk am / d <= mdio_rate am /\
    forall j e, (j < k)%nat -> div_table (hw am) !! j = Some e ->
                mdio_rate am < ref_clk am / e.
Proof.
  intros Hclk Hsize. unfold ag71xx_mdio_get_divider, clk_get_rate.
  apply Z.eqb_neq in Hclk. rewrite Hclk, Hsize. intros Hscan.
  destruct (divider_scan_done am d _ 0%nat eq_refl Hscan)
    as (k & _ & Hd & _ & Hok & Hbefore).
  exists k. repeat split; auto.
  intros j e Hj He. specialize (Hbefore j e ltac:(lia) He).
  unfold slow_enough in Hbefore. lia.
Qed.

Lemma returned_divider_is_first_acceptable_witness :
  exists k,
    div_table (hw am_40mhz) !! k = Some 20 /\
    ref_clk am_40mhz / 20 <= mdio_rate am_40mhz /\
    forall j e, (j < k)%nat -> div_table (hw am_40mhz) !! j = Some e ->
                mdio_rate am_40mhz < ref_clk am_40mhz / e.
Proof.
  apply (returned_divider_is_first_acceptable am_40mhz 20).
  - discriminate.
  - reflexivity.
  - reflexivity.
Defined.



(** X21.  With a nonzero reference clock and an empty table the scan
    does not fall back to anything: whatever size is recorded, already
    its first step reads [div_table[0]], outside the table. *)
Theorem empty_table_is_read_out_of_bounds (am : ag71xx_mdio) :
  ref_clk am <> 0 ->
  div_table (hw am) = [] ->
  ag71xx_mdio_get_divider am = Fault (OutOfBounds 0).
Proof.
  intros Hclk Hempty. unfold ag71xx_mdio_get_divider, clk_get_rate.
  apply Z.eqb_neq in Hclk. rewrite Hclk. simpl.
  unfold div_table_at. now rewrite Hempty.
Qed.

Lemma empty_table_is_read_out_of_bounds_witness :
  ag71xx_mdio_get_divider
    {| ref_clk := 200000000; mdio_rate := AG71XX_MDIO_RATE;
       hw := {| div_table := []; div_table_size := 0 |} |}
  = Fault (OutOfBounds 0).
Proof.
  apply empty_table_is_read_out_of_bounds; [discriminate | reflexivity].
Defined.

End MdioMore.

(** * Properties of handle acquisition *)

Module MiiCtrlGetSpec.
Import MiiCtrl MiiCtrlGet Vocabulary MiiCtrlSpec.

(** Every path through [devm_mii_ctrl_get], by what the kernel
    answered. *)
Lemma devm_mii_ctrl_get_cases (k : of_lookup) :
  (parse_status k <> 0 /\
   devm_mii_ctrl_get k = (inl (parse_status k), [dev_err])) \/
  (parse_status k = 0 /\ found_device k = None /\
   devm_mii_ctrl_get k = (inl (- ENODEV), [of_node_put])) \/
  (exists pdev, parse_status k = 0 /\ found_device k = Some pdev /\
     ((driver pdev = false /\
       devm_mii_ctrl_get k = (inl (- EPROBE_DEFER), [of_node_put; put_device])) \/
      (driver pdev = true /\ drvdata pdev = None /\
       devm_mii_ctrl_get k = (inl (- EINVAL), [of_node_put; put_device])) \/
      (exists c, driver pdev = true /\ drvdata pdev = Some c /\
         ((num_port c <= phandle_args0 k /\
           devm_mii_ctrl_get k
           = (inl (- EINVAL), [of_node_put; dev_err; put_device])) \/
          (phandle_args0 k < num_port c /\ devres_alloc_ok k = false /\
           devm_mii_ctrl_get k = (inl (- ENOMEM), [of_node_put; put_device])) \/
          (phandle_args0 k < num_port c /\ devres_alloc_ok k = true /\
           devm_mii_ctrl_get k
           = (inr {| ctrl := c; port := phandle_args0 k |},
              [of_node_put;
               devres_add {| ctrl := c; port := phandle_args0 k |}])))))).
Proof.
  unfold devm_mii_ctrl_get.
  destruct (Z.eqb_spec (parse_status k) 0) as [Hparse | Hparse]; cbn [negb];
    [| left; now split].
  right. destruct (found_device k) as [pdev |]; [right | left; now repeat split].
  exists pdev. split; [assumption |]. split; [reflexivity |].
  destruct (driver pdev); cbn [negb]; [right | left; now split].
  destruct (drvdata pdev) as [c |]; [right | left; now repeat split].
  exists c. split; [reflexivity |]. split; [reflexivity |].
  destruct (Z.leb_spec (num_port c) (phandle_args0 k)); [left; now split |].
  right. destruct (devres_alloc_ok k); cbn [negb];
    [right | left]; now repeat split.
Qed.

(** X23.  A handle that [devm_mii_ctrl_get] returns is bound to a port
    below the controller's port count; its controller is the driver
    data of a device that was found with a driver bound; the handle has
    been registered with [devres_add], and the device reference taken
    by the lookup has not been dropped. *)
Theorem acquired_handle_is_in_range (k : of_lookup) (hdl : mii_ctrl_handle)
    (t : list kcall) :
  devm_mii_ctrl_get k = (inr hdl, t) ->
  port hdl = phandle_args0 k /\
  port hdl < num_port (ctrl hdl) /\
  (exists pdev, found_device k = Some pdev /\ driver pdev = true /\
                drvdata pdev = Some (ctrl hdl)) /\
  t = [of_node_put; devres_add hdl] /\
  puts t = 0%nat.
Proof.
  intros Hget.
  destruct (devm_mii_ctrl_get_cases k)
    as [[_ E] | [(_ & _ & E) | (pdev & _ & Hfound &
         [[_ E] | [(_ & _ & E) | (c & Hdrv & Hdata &
           [[_ E] | [(_ & _ & E) | (Hport & _ & E)]])]])]];
    rewrite E in Hget; try discriminate Hget.
  inversion Hget; subst hdl t. cbn [port ctrl].
  repeat split; try assumption. exists pdev. now repeat split.
Qed.

Lemma acquired_handle_is_in_range_witness :
  port (hdl_ar7100 1) < num_port (ctrl (hdl_ar7100 1)).
Proof.
  apply (acquired_handle_is_in_range (lookup_ar7100 1) (hdl_ar7100 1)
           [of_node_put; devres_add (hdl_ar7100 1)]).
  reflexivity.
Defined.

(** X24.  The device reference is dropped exactly once per device
    found: on an error return after the lookup by the [put_dev] exit,
    on success by the handle's release function, and never when no
    device was found.  An error return registers no handle. *)
Theorem device_reference_is_dropped_once (k : of_lookup) :
  puts (snd (devm_mii_ctrl_get k)
        ++ match fst (devm_mii_ctrl_get k) with
           | inr hdl => mii_ctrl_release hdl
           | inl _ => []
           end)
  = (if (parse_status k =? 0) && bool_decide (is_Some (found_device k))
     then 1%nat else 0%nat) /\
  (forall err, fst (devm_mii_ctrl_get k) = inl err ->
               err <> 0 /\ adds (snd (devm_mii_ctrl_get k)) = 0%nat).
Proof.
  destruct (devm_mii_ctrl_get_cases k)
    as [[Hp E] | [(Hp & Hfound & E) | (pdev & Hp & Hfound &
         [[_ E] | [(_ & _ & E) | (c & Hdrv & Hdata &
           [[_ E] | [(_ & _ & E) | (Hport & _ & E)]])]])]];
    rewrite E; cbn [fst snd]; rewrite ?Hfound; rewrite ?Hp;
    try (apply Z.eqb_neq in Hp; rewrite Hp);
    (split; [reflexivity |]); intros err Herr; inversion Herr; subst err;
    split; try reflexivity; try discriminate.
  now apply Z.eqb_neq.
Qed.

Lemma device_reference_is_dropped_once_witness :
  fst (devm_mii_ctrl_get lookup_unbound) = inl (- EPROBE_DEFER) /\
  adds (snd (devm_mii_ctrl_get lookup_unbound)) = 0%nat.
Proof.
  split; [reflexivity |].
  apply (proj2 (device_reference_is_dropped_once lookup_unbound)
           (- EPROBE_DEFER)).
  reflexivity.
Defined.

(** X25.  Provided the phandle parser does not itself report
    [-EPROBE_DEFER], the acquisition answers [-EPROBE_DEFER] exactly
    when the controller device exists and has no driver bound yet; a
    missing device is [-ENODEV] instead. *)
Theorem probe_is_deferred_iff_driver_unbound (k : of_lookup) :
  parse_status k <> - EPROBE_DEFER ->
  (fst (devm_mii_ctrl_get k) = inl (- EPROBE_DEFER) <->
   parse_status k = 0 /\
   exists pdev, found_device k = Some pdev /\ driver pdev = false) /\
  (parse_status k = 0 -> found_device k = None ->
   fst (devm_mii_ctrl_get k) = inl (- ENODEV)).
Proof.
  intros Hnot.
  destruct (devm_mii_ctrl_get_cases k)
    as [[Hp E] | [(Hp & Hfound & E) | (pdev & Hp & Hfound &
         [[Hdrv E] | [(Hdrv & _ & E) | (c & Hdrv & Hdata &
           [[_ E] | [(_ & _ & E) | (Hport & _ & E)]])]])]];
    rewrite E; cbn [fst]; (split; [split |]);
    try (intros H; inversion H; congruence);
    try (intros [H0 (p & Hf & Hd)]; congruence);
    try congruence.
  intros _. split; [assumption |]. now exists pdev.
Qed.

Lemma probe_is_deferred_iff_driver_unbound_witness :
  fst (devm_mii_ctrl_get lookup_unbound) = inl (- EPROBE_DEFER).
Proof.
  apply (proj1 (probe_is_deferred_iff_driver_unbound lookup_unbound
                  ltac:(discriminate))).
  split; [reflexivity |]. eexists. split; reflexivity.
Defined.

(** ** Acquired handles and the register window *)

Lemma run_call_writes_own_port_only (c : mii_call) (io : window) (off : Z) :
  off <> match c with
         | Set_interface _ hdl _ => port hdl * 4
         | Set_speed hdl _ => port hdl * 4
         end ->
  snd (run_call c io) off = io off.
Proof.
  destruct c as [port_local hdl iface | hdl link_speed]; cbn [run_call];
    intros Hoff.
  - destruct (set_interface_shape port_local hdl iface io)
      as [-> | (select & _ & ->)]; cbn [snd]; [reflexivity |].
    now apply MiiCtrlMore.writel_other.
  - destruct (set_speed_shape hdl link_speed io) as [-> | (speed & _ & ->)];
      cbn [snd]; [reflexivity |].
    now apply MiiCtrlMore.writel_other.
Qed.

(** X26.  Through a handle obtained from [devm_mii_ctrl_get] with a
    non-negative port argument, neither operation writes outside the
    controller's register window: every offset below 0 or from
    [4 * num_port] on reads as before the call. *)
Theorem acquired_handle_stays_in_window (k : of_lookup)
    (hdl : mii_ctrl_handle) (t : list kcall) :
  devm_mii_ctrl_get k = (inr hdl, t) ->
  0 <= phandle_args0 k ->
  forall (io : window) (off : Z),
    off < 0 \/ 4 * num_port (ctrl hdl) <= off ->
    (forall port_local iface,
       snd (mii_ctrl_set_interface port_local hdl iface io) off = io off) /\
    (forall link_speed,
       snd (mii_ctrl_set_speed hdl link_speed io) off = io off).
Proof.
  intros Hget Harg io off Hoff.
  assert (Hrange : 0 <= port hdl < num_port (ctrl hdl)).
  { destruct (devm_mii_ctrl_get_cases k)
      as [[_ E] | [(_ & _ & E) | (pdev & _ & Hfound &
           [[_ E] | [(_ & _ & E) | (c & Hdrv & Hdata &
             [[_ E] | [(_ & _ & E) | (Hport & _ & E)]])]])]];
      rewrite E in Hget; try discriminate Hget.
    inversion Hget; subst hdl t. cbn [port ctrl]. lia. }
  split.
  - intros port_local iface.
    apply (run_call_writes_own_port_only (Set_interface port_local hdl iface)).
    lia.
  - intros link_speed.
    apply (run_call_writes_own_port_only (Set_speed hdl link_speed)). lia.
Qed.

Lemma acquired_handle_stays_in_window_witness :
  snd (mii_ctrl_set_speed (hdl_ar7100 1) 100 (all_ports 0x02)) 8 = 0x02.
Proof.
  apply (proj2 (acquired_handle_stays_in_window (lookup_ar7100 1)
                  (hdl_ar7100 1) [of_node_put; devres_add (hdl_ar7100 1)]
                  eq_refl ltac:(simpl; lia) (all_ports 0x02) 8
                  ltac:(right; simpl; lia))).
Defined.

End MiiCtrlGetSpec.
